(** * WaterGuardian: threshold classification and conditional AI invocation

    A shallow embedding of [main_complete.py] (the FastAPI ingestion
    server of the cooling-water monitor) together with the properties its
    specification states about it.

    Layout:
    - [PyFloat]   : Python floats as the comparisons of the program see them;
    - [PyStr]     : Python [str] values as lists of code points, with the
                    string methods the response parser uses;
    - [Clock]     : [datetime] / [timedelta] arithmetic with its range checks;
    - the server  : the tables, [check_thresholds], [receive_data],
                    [call_ai], [history], [clear_data];
    - the properties, then their instances on sample inputs. *)

From Stdlib Require Import ZArith QArith Lqa Lia List String Ascii Bool DecimalString.
From Stdlib Require Import Sorted Permutation.
Import ListNotations.
Close Scope Q_scope.

Set Implicit Arguments.

(* ====================================================================== *)
(** ** Python floats *)
(* ====================================================================== *)

Module PyFloat.

(** A Python [float] is an IEEE binary64 value. Every finite one is a
    (dyadic) rational, and Python compares a float with an [int] threshold
    by exact value, so a finite float is carried by its rational value;
    the two infinities and NaN, which a JSON body may contain, are separate
    constructors. *)
Inductive pyfloat : Type :=
| Fin (q : Q)
| PosInf
| NegInf
| NaN.

Definition Qlt_bool (x y : Q) : bool :=
  (Qnum x * QDen y <? Qnum y * QDen x)%Z.

(** [x < y] on floats: false as soon as one side is NaN. *)
Definition flt (x y : pyfloat) : bool :=
  match x, y with
  | NaN, _ | _, NaN => false
  | Fin a, Fin b => Qlt_bool a b
  | NegInf, NegInf => false
  | NegInf, _ => true
  | PosInf, _ => false
  | Fin _, PosInf => true
  | Fin _, NegInf => false
  end.

(** [x <= y] on floats. *)
Definition fle (x y : pyfloat) : bool :=
  match x, y with
  | NaN, _ | _, NaN => false
  | Fin a, Fin b => Qle_bool a b
  | NegInf, _ => true
  | PosInf, PosInf => true
  | PosInf, _ => false
  | Fin _, PosInf => true
  | Fin _, NegInf => false
  end.

Definition fgt (x y : pyfloat) : bool := flt y x.
Definition fge (x y : pyfloat) : bool := fle y x.

(** An [int] operand of a mixed comparison. *)
Definition of_int (z : Z) : pyfloat := Fin (inject_Z z).

End PyFloat.
Export PyFloat.

Declare Scope pyfloat_scope.
Delimit Scope pyfloat_scope with F.
Infix "<?" := flt (at level 70) : pyfloat_scope.
Infix ">?" := fgt (at level 70) : pyfloat_scope.
Infix "<=?" := fle (at level 70) : pyfloat_scope.
Infix ">=?" := fge (at level 70) : pyfloat_scope.

(* ====================================================================== *)
(** ** Python strings *)
(* ====================================================================== *)

Module PyStr.

(** A [str] is a sequence of Unicode code points. *)
Definition pychar := N.
Definition pystr := list pychar.

(** An ASCII literal of the source. *)
Definition lit (s : string) : pystr := map N_of_ascii (list_ascii_of_string s).

Definition nonempty (A : Type) (l : list A) : bool :=
  match l with [] => false | _ :: _ => true end.

Fixpoint str_eqb (a b : pystr) : bool :=
  match a, b with
  | [], [] => true
  | x :: a', y :: b' => N.eqb x y && str_eqb a' b'
  | _, _ => false
  end.

(** [s.startswith(p)] *)
Fixpoint startswith (p s : pystr) : bool :=
  match p, s with
  | [], _ => true
  | x :: p', y :: s' => N.eqb x y && startswith p' s'
  | _ :: _, [] => false
  end.

(** [p in s] (substring test) *)
Fixpoint contains (p s : pystr) : bool :=
  startswith p s || match s with [] => false | _ :: s' => contains p s' end.

(** [s in [a, b, ...]] (list membership, by string equality) *)
Definition str_in (s : pystr) (l : list pystr) : bool := existsb (str_eqb s) l.

(** [s.split('\n')]: never empty, one more piece than separators. *)
Fixpoint split_lines (s : pystr) : list pystr :=
  match s with
  | [] => [[]]
  | c :: s' =>
      if N.eqb c 10 then [] :: split_lines s'
      else match split_lines s' with
           | [] => [[c]]
           | l :: ls => (c :: l) :: ls
           end
  end.

(** Characters removed by [str.strip()]/[str.lstrip()] without argument:
    the code points for which [str.isspace] holds. *)
Definition isspace (c : pychar) : bool :=
  ((9 <=? c) && (c <=? 13) || (28 <=? c) && (c <=? 32) || (c =? 133) || (c =? 160)
   || (c =? 5760) || (8192 <=? c) && (c <=? 8202) || (c =? 8232) || (c =? 8233)
   || (c =? 8239) || (c =? 8287) || (c =? 12288))%N.

(** Drop the longest prefix of characters satisfying [p]. *)
Fixpoint drop_while (p : pychar -> bool) (s : pystr) : pystr :=
  match s with
  | [] => []
  | c :: s' => if p c then drop_while p s' else s
  end.

Definition lstrip_with (p : pychar -> bool) (s : pystr) : pystr := drop_while p s.
Definition rstrip_with (p : pychar -> bool) (s : pystr) : pystr :=
  rev (drop_while p (rev s)).

(** [s.strip()] *)
Definition strip (s : pystr) : pystr := rstrip_with isspace (lstrip_with isspace s).

(** [s.lstrip(chars)] *)
Definition lstrip_chars (chars : pystr) (s : pystr) : pystr :=
  lstrip_with (fun c => existsb (N.eqb c) chars) s.

(** [s[0:n]] *)
Definition slice_to (n : nat) (s : pystr) : pystr := firstn n s.

(** [str.upper] restricted to one ASCII character. *)
Definition ascii_upper (c : pychar) : pychar :=
  if ((97 <=? c) && (c <=? 122))%N then (c - 32)%N else c.

Definition is_ascii (c : pychar) : bool := (c <? 128)%N.

End PyStr.
Export PyStr.

(* ====================================================================== *)
(** ** Dates and durations *)
(* ====================================================================== *)

Module Clock.

(** A [datetime] is counted in microseconds from [datetime.min]
    (0001-01-01T00:00:00); [datetime.max] is the last microsecond of
    9999-12-31, day number 3652059 of the proleptic calendar. *)
Definition datetime := Z.

Definition US_PER_HOUR : Z := 3600000000.
Definition US_PER_DAY : Z := 86400000000.
Definition MAX_ORDINAL : Z := 3652059.
Definition MAX_DELTA_DAYS : Z := 999999999.

Definition datetime_ok (t : datetime) : bool :=
  (0 <=? t)%Z && (t <? MAX_ORDINAL * US_PER_DAY)%Z.

(** [timedelta(hours=h)] for an [int] h: the duration in microseconds, or
    [None] for the OverflowError raised when its day count leaves
    [-999999999, 999999999]. *)
Definition timedelta_hours (h : Z) : option Z :=
  let days := (h / 24)%Z in
  if (- MAX_DELTA_DAYS <=? days)%Z && (days <=? MAX_DELTA_DAYS)%Z
  then Some (h * US_PER_HOUR)%Z
  else None.

(** [t - delta]: [None] for the OverflowError raised when the result is not
    a representable date. *)
Definition datetime_sub (t : datetime) (delta : Z) : option datetime :=
  let r := (t - delta)%Z in
  if datetime_ok r then Some r else None.

End Clock.
Export Clock.

(* ====================================================================== *)
(** ** The server *)
(* ====================================================================== *)

(** *** Severity *)

Inductive severity : Type := safe | warning | critical.

Definition severity_eqb (a b : severity) : bool :=
  match a, b with
  | safe, safe | warning, warning | critical, critical => true
  | _, _ => false
  end.

(** The string the program stores for each level. *)
Definition severity_str (s : severity) : pystr :=
  match s with
  | safe => lit "safe"
  | warning => lit "warning"
  | critical => lit "critical"
  end.

(** The order safe < warning < critical. *)
Definition severity_rank (s : severity) : nat :=
  match s with safe => 0 | warning => 1 | critical => 2 end.

Definition severity_le (a b : severity) : Prop :=
  severity_rank a <= severity_rank b.

(** [if severity == "safe": severity = "warning"] *)
Definition raise_to_warning (s : severity) : severity :=
  if severity_eqb s safe then warning else s.

(** *** Tables *)

(** What a [Float] column gives back for a float written to it: SQLite
    stores NaN as NULL, which is read back as [None]; every other value,
    the infinities included, is kept. *)
Definition sqlite_real (x : pyfloat) : option pyfloat :=
  match x with
  | NaN => None
  | _ => Some x
  end.

(** The integers SQLite can bind as a parameter: signed 64-bit. *)
Definition sqlite_int_ok (z : Z) : bool :=
  (- 2 ^ 63 <=? z)%Z && (z <=? 2 ^ 63 - 1)%Z.

Record Reading : Type := mkReading {
  r_id : Z;
  r_timestamp : datetime;
  r_TDS : option pyfloat;
  r_temperature : option pyfloat;
  r_is_safe : bool;
  r_ai_triggered : bool
}.

(** The [recommendations] column holds [json.dumps] of a list of strings
    and is read back with [json.loads]; the row keeps the list. *)
Record Analysis : Type := mkAnalysis {
  a_id : Z;
  a_timestamp : datetime;
  a_reading_id : Z;
  a_analysis : pystr;
  a_status : severity;
  a_recommendations : list pystr;
  a_response_ms : Z
}.

(** The SQLite file: the rows of the two tables, in insertion order. *)
Record Db : Type := mkDb {
  readings : list Reading;
  analyses : list Analysis
}.

(** An [INTEGER PRIMARY KEY] left unset on insert takes one more than the
    largest id in the table (1 in an empty table). *)
Definition next_id (ids : list Z) : Z := (fold_right Z.max 0 ids + 1)%Z.

Definition add_reading (db : Db) (r : Reading) : Db :=
  mkDb (readings db ++ [r]) (analyses db).

Definition add_analysis (db : Db) (a : Analysis) : Db :=
  mkDb (readings db) (analyses db ++ [a]).

(** *** Thresholds *)

Record TdsThresholds : Type := mkTdsThresholds {
  tds_optimal_min : Z;
  tds_optimal_max : Z;
  tds_warning_max : Z;
  tds_critical_max : Z
}.

Record TemperatureThresholds : Type := mkTemperatureThresholds {
  temp_optimal_min : Z;
  temp_optimal_max : Z;
  temp_warning_min : Z;
  temp_warning_max : Z;
  temp_critical_min : Z;
  temp_critical_max : Z
}.

Record Thresholds : Type := mkThresholds {
  th_TDS : TdsThresholds;
  th_temperature : TemperatureThresholds
}.

Definition THRESHOLDS : Thresholds :=
  mkThresholds
    (mkTdsThresholds 60 500 1200 1500)
    (mkTemperatureThresholds 18 27 15 32 10 35).

(** An [int] formatted inside an f-string. *)
Definition int_repr (z : Z) : pystr := lit (NilZero.string_of_int (Z.to_int z)).

(** The two characters the source has between the temperature and "C". *)
Definition degree_mark : pystr := [172; 8734]%N.

(** The character set of the [lstrip] call of the parser:
    '1', '2', '3', '.', '-', U+201A, U+00C4, U+00A2 and the space. *)
Definition enumeration_chars : pystr := (lit "123.-" ++ [8218; 196; 162] ++ lit " ")%list%N.

(** *** Requests, responses and the outside world *)

Record SensorInput : Type := mkSensorInput {
  TDS : pyfloat;
  temperature : pyfloat
}.

(** The text sent to the AI service is a fixed template with four holes;
    a prompt is recorded by what fills them: [data.TDS],
    [data.temperature], the issues (the template joins them with ", ") and
    [severity.upper()]. *)
Record Prompt : Type := mkPrompt {
  p_TDS : pyfloat;
  p_temperature : pyfloat;
  p_issues : list pystr;
  p_severity : pystr
}.

(** The dictionary [call_ai] returns on success. *)
Record AnalysisData : Type := mkAnalysisData {
  ad_analysis : pystr;
  ad_status : severity;
  ad_recommendations : list pystr;
  ad_response_ms : Z
}.

(** The JSON object [receive_data] returns; [resp_analysis = None] is
    the JSON [null]. *)
Record Response : Type := mkResponse {
  resp_id : Z;
  resp_timestamp : datetime;
  resp_TDS : option pyfloat;
  resp_temperature : option pyfloat;
  resp_is_safe : bool;
  resp_ai_triggered : bool;
  resp_severity : severity;
  resp_issues : list pystr;
  resp_analysis : option AnalysisData
}.

(** What one request sees of the outside: the clock at the two inserts,
    the AI service ([None] when [generate_content] or reading
    [response.text] raises) and the measured latency. *)
Record Env : Type := mkEnv {
  utcnow_reading : datetime;
  generate_content : Prompt -> option pystr;
  elapsed_ms : Z;
  utcnow_analysis : datetime
}.

(** The store together with the log of requests made to the AI service. *)
Record World : Type := mkWorld {
  w_db : Db;
  w_ai_calls : list Prompt
}.

Record HistoryItem : Type := mkHistoryItem {
  h_timestamp : datetime;
  h_TDS : option pyfloat;
  h_temperature : option pyfloat;
  h_is_safe : bool
}.

Record HistoryResponse : Type := mkHistoryResponse {
  h_count : nat;
  h_hours : Z;
  h_data : list HistoryItem
}.

(** [ORDER BY timestamp ASC]: rows with equal timestamps keep table order. *)
Fixpoint insert_by_timestamp (r : Reading) (l : list Reading) : list Reading :=
  match l with
  | [] => [r]
  | x :: l' =>
      if (r_timestamp r <? r_timestamp x)%Z then r :: l
      else x :: insert_by_timestamp r l'
  end.

Definition order_by_timestamp (l : list Reading) : list Reading :=
  fold_left (fun acc r => insert_by_timestamp r acc) l [].

Section Server.

(** How Python prints a float inside an f-string. *)
Variable float_repr : pyfloat -> pystr.

(** [str.upper], whose full Unicode case mapping is left open. *)
Variable upper : pystr -> pystr.

(** The value read from the GEMINI_API_KEY environment variable
    (the empty string when it is unset). *)
Variable GEMINI_API_KEY : pystr.

(** *** check_thresholds *)

Definition issue_tds_low (tds : pyfloat) : pystr :=
  lit "TDS " ++ float_repr tds ++ lit " ppm - TOO LOW (corrosion risk)".

Definition issue_tds_critical (tds : pyfloat) : pystr :=
  lit "TDS " ++ float_repr tds ++ lit " ppm - CRITICAL SCALE RISK (>"
    ++ int_repr (tds_critical_max (th_TDS THRESHOLDS)) ++ lit " ppm)".

Definition issue_tds_warning (tds : pyfloat) : pystr :=
  lit "TDS " ++ float_repr tds ++ lit " ppm - SCALE FORMATION WARNING (>"
    ++ int_repr (tds_warning_max (th_TDS THRESHOLDS)) ++ lit " ppm)".

Definition issue_tds_above (tds : pyfloat) : pystr :=
  lit "TDS " ++ float_repr tds ++ lit " ppm - ABOVE OPTIMAL (>"
    ++ int_repr (tds_optimal_max (th_TDS THRESHOLDS)) ++ lit " ppm)".

Definition issue_temp_critical (temp : pyfloat) : pystr :=
  lit "Temperature " ++ float_repr temp ++ degree_mark
    ++ lit "C - CRITICAL (system malfunction)".

Definition issue_temp_warning (temp : pyfloat) : pystr :=
  lit "Temperature " ++ float_repr temp ++ degree_mark
    ++ lit "C - EFFICIENCY WARNING".

Definition issue_temp_above (temp : pyfloat) : pystr :=
  lit "Temperature " ++ float_repr temp ++ degree_mark
    ++ lit "C - ABOVE OPTIMAL (reduced cooling)".

(** The TDS if/elif chain, as a step on the two locals
    [(severity, issues)]. *)
Definition check_tds (tds : pyfloat) (st : severity * list pystr)
  : severity * list pystr :=
  let '(sev, issues) := st in
  let T := th_TDS THRESHOLDS in
  if (tds <? of_int (tds_optimal_min T))%F then
    (warning, issues ++ [issue_tds_low tds])
  else if (tds >? of_int (tds_critical_max T))%F then
    (critical, issues ++ [issue_tds_critical tds])
  else if (tds >? of_int (tds_warning_max T))%F then
    (raise_to_warning sev, issues ++ [issue_tds_warning tds])
  else if (tds >? of_int (tds_optimal_max T))%F then
    (raise_to_warning sev, issues ++ [issue_tds_above tds])
  else (sev, issues).

(** The temperature if/elif chain, on the same two locals. *)
Definition check_temperature (temp : pyfloat) (st : severity * list pystr)
  : severity * list pystr :=
  let '(sev, issues) := st in
  let T := th_temperature THRESHOLDS in
  if (temp <? of_int (temp_critical_min T))%F
     || (temp >? of_int (temp_critical_max T))%F then
    (critical, issues ++ [issue_temp_critical temp])
  else if (temp <? of_int (temp_warning_min T))%F
          || (temp >? of_int (temp_warning_max T))%F then
    (raise_to_warning sev, issues ++ [issue_temp_warning temp])
  else if (temp >? of_int (temp_optimal_max T))%F then
    (raise_to_warning sev, issues ++ [issue_temp_above temp])
  else (sev, issues).

(** Returns [(should_trigger_ai, severity, issues)]. *)
Definition check_thresholds (tds temp : pyfloat)
  : bool * severity * list pystr :=
  let '(sev, issues) := check_temperature temp (check_tds tds (safe, [])) in
  (negb (severity_eqb sev safe), sev, issues).

(** *** call_ai *)

(** One turn of the loop over the lines of the AI text; the loop state is
    [(in_actions, recs)]. *)
Definition scan_line (line : pystr) (st : bool * list pystr)
  : bool * list pystr :=
  let '(in_actions, recs) := st in
  if contains (lit "ACTIONS:") (upper line) then (true, recs)
  else if in_actions then
    let line := strip line in
    if nonempty line
       && (str_in (slice_to 2 line) [lit "1."; lit "2."; lit "3."]
           || startswith (lit "-") line)
    then
      let clean_rec := strip (lstrip_chars enumeration_chars line) in
      if nonempty clean_rec then (in_actions, recs ++ [clean_rec])
      else (in_actions, recs)
    else (in_actions, recs)
  else (in_actions, recs).

Definition scan_lines (lines : list pystr) (st : bool * list pystr)
  : bool * list pystr :=
  fold_left (fun st line => scan_line line st) lines st.

(** The recommendations parsed out of the AI text. *)
Definition parse_recs (analysis_text : pystr) : list pystr :=
  snd (scan_lines (split_lines analysis_text) (false, [])).

Definition FALLBACK_RECS : list pystr :=
  [ lit "Schedule immediate water treatment system inspection";
    lit "Increase monitoring frequency to every 5 minutes";
    lit "Contact cooling system maintenance team" ].

(** [recs] after [if not recs: recs = [...]]. *)
Definition recs_or_fallback (recs : list pystr) : list pystr :=
  if nonempty recs then recs else FALLBACK_RECS.

(** [recs[:3]], the list that is stored and returned. *)
Definition extract_recommendations (analysis_text : pystr) : list pystr :=
  firstn 3 (recs_or_fallback (parse_recs analysis_text)).

Definition build_prompt (data : SensorInput) (sev : severity)
    (issues : list pystr) : Prompt :=
  mkPrompt (TDS data) (temperature data) issues (upper (severity_str sev)).

(** The whole body is inside [try: ... except Exception: return None]. *)
Definition call_ai (env : Env) (data : SensorInput) (sev : severity)
    (issues : list pystr) (reading_id : Z) (w : World)
  : option AnalysisData * World :=
  let prompt := build_prompt data sev issues in
  let w1 := mkWorld (w_db w) (w_ai_calls w ++ [prompt]) in
  match generate_content env prompt with
  | None => (None, w1)
  | Some analysis_text =>
      let recs := extract_recommendations analysis_text in
      let response_ms := elapsed_ms env in
      let analysis :=
        mkAnalysis (next_id (map a_id (analyses (w_db w1))))
                   (utcnow_analysis env) reading_id analysis_text
                   sev recs response_ms in
      (Some (mkAnalysisData analysis_text sev recs response_ms),
       mkWorld (add_analysis (w_db w1) analysis) (w_ai_calls w1))
  end.

(** *** receive_data *)

(** [data.TDS > 1000 and GEMINI_API_KEY], as the [if] reads it. *)
Definition should_call_ai (data : SensorInput) : bool :=
  (TDS data >? of_int 1000)%F && nonempty GEMINI_API_KEY.

Definition issue_high_tds (tds : pyfloat) : pystr :=
  lit "TDS " ++ float_repr tds
    ++ lit " ppm - High TDS detected (>1000 ppm). Immediate scale risk.".

(** [if not issues: issues.append(...)]; the list is the one the response
    returns afterwards. *)
Definition ensure_issues (data : SensorInput) (issues : list pystr)
  : list pystr :=
  if nonempty issues then issues else issues ++ [issue_high_tds (TDS data)].

(** The result is the dictionary the handler returns, before it is
    rendered as JSON. Its TDS, temperature and is_safe are read from the
    row as [db.refresh] loads it back, so a NaN written to a [Float]
    column comes back as [None]. *)
Definition receive_data (env : Env) (data : SensorInput) (w : World)
  : Response * World :=
  let '(should_trigger, sev, issues) :=
    check_thresholds (TDS data) (temperature data) in
  let call := should_call_ai data in
  let reading :=
    mkReading (next_id (map r_id (readings (w_db w))))
              (utcnow_reading env)
              (sqlite_real (TDS data)) (sqlite_real (temperature data))
              (severity_eqb sev safe) should_trigger in
  let w1 := mkWorld (add_reading (w_db w) reading) (w_ai_calls w) in
  let '(issues', (analysis_data, w2)) :=
    if call then
      let issues' := ensure_issues data issues in
      (issues', call_ai env data sev issues' (r_id reading) w1)
    else (issues, (None, w1)) in
  (mkResponse (r_id reading) (r_timestamp reading) (r_TDS reading)
              (r_temperature reading) (r_is_safe reading) should_trigger
              sev issues' analysis_data,
   w2).

(** *** history and clear_data *)

(** [None] when computing [since] raises. *)
Definition history (now : datetime) (hours : Z) (db : Db)
  : option HistoryResponse :=
  match timedelta_hours hours with
  | None => None
  | Some delta =>
      match datetime_sub now delta with
      | None => None
      | Some since =>
          let rows :=
            order_by_timestamp
              (filter (fun r => (since <=? r_timestamp r)%Z) (readings db)) in
          Some (mkHistoryResponse
                  (List.length rows) hours
                  (map (fun r => mkHistoryItem (r_timestamp r) (r_TDS r)
                                               (r_temperature r) (r_is_safe r))
                       rows))
      end
  end.

(** [db.query(Analysis).delete()] and [db.query(Reading).delete()] *)
Definition delete_analyses (db : Db) : Db := mkDb (readings db) [].
Definition delete_readings (db : Db) : Db := mkDb [] (analyses db).

Definition clear_data (db : Db) : pystr * Db :=
  (lit "All data cleared", delete_readings (delete_analyses db)).

End Server.

(** The three components of the classifier's result. *)
Definition cls_trigger (r : bool * severity * list pystr) : bool := fst (fst r).
Definition cls_severity (r : bool * severity * list pystr) : severity := snd (fst r).
Definition cls_issues (r : bool * severity * list pystr) : list pystr := snd r.

(** The prompt [receive_data] sends for a reading when it calls the AI. *)
Definition request_prompt (float_repr : pyfloat -> pystr)
    (upper : pystr -> pystr) (data : SensorInput) : Prompt :=
  let r := check_thresholds float_repr (TDS data) (temperature data) in
  build_prompt upper data (cls_severity r)
    (ensure_issues float_repr data (cls_issues r)).

(** The row [receive_data] inserts for a reading. *)
Definition request_reading (float_repr : pyfloat -> pystr)
    (env : Env) (data : SensorInput) (w : World) : Reading :=
  let r := check_thresholds float_repr (TDS data) (temperature data) in
  mkReading (next_id (map r_id (readings (w_db w))))
            (utcnow_reading env)
            (sqlite_real (TDS data)) (sqlite_real (temperature data))
            (severity_eqb (cls_severity r) safe) (cls_trigger r).

(** [str.upper] on text whose letters are all ASCII. *)
Definition upper_ascii_text (s : pystr) : pystr := map ascii_upper s.

(** What is known of [str.upper]: on an all-ASCII string it maps a-z to
    A-Z and leaves the rest. *)
Definition upper_on_ascii (upper : pystr -> pystr) : Prop :=
  forall s, forallb is_ascii s = true -> upper s = map ascii_upper s.

Definition ACTIONS_MARKER : pystr := lit "ACTIONS:".

(** The lookback windows for which [history] can compute [since]. *)
Definition window_ok (now : datetime) (hours : Z) : bool :=
  ((- MAX_DELTA_DAYS <=? hours / 24)%Z && (hours / 24 <=? MAX_DELTA_DAYS)%Z)
  && datetime_ok (now - hours * US_PER_HOUR)%Z.

(** *** The other endpoints *)

(** [ORDER BY key DESC] on a column without an index (SQLite sorts the
    scanned rows): rows with equal keys keep table order. *)
Fixpoint insert_desc (A : Type) (key : A -> Z) (x : A) (l : list A) : list A :=
  match l with
  | [] => [x]
  | y :: l' =>
      if (key y <? key x)%Z then x :: l
      else y :: insert_desc key x l'
  end.

Definition order_by_desc (A : Type) (key : A -> Z) (l : list A) : list A :=
  fold_left (fun acc x => insert_desc key x acc) l [].

(** [ORDER BY timestamp DESC] on [readings], whose timestamp column is
    indexed: SQLite walks the index backwards, so among rows with equal
    timestamps the one inserted last comes first. *)
Fixpoint insert_newest_first (r : Reading) (l : list Reading) : list Reading :=
  match l with
  | [] => [r]
  | y :: l' =>
      if (r_timestamp y <=? r_timestamp r)%Z then r :: l
      else y :: insert_newest_first r l'
  end.

Definition order_by_timestamp_desc (l : list Reading) : list Reading :=
  fold_left (fun acc r => insert_newest_first r acc) l [].

(** The [analysis] object of [/readings/latest]. *)
Record LatestAnalysis : Type := mkLatestAnalysis {
  la_analysis : pystr;
  la_status : severity;
  la_recommendations : list pystr
}.

Record LatestResponse : Type := mkLatestResponse {
  l_id : Z;
  l_timestamp : datetime;
  l_TDS : option pyfloat;
  l_temperature : option pyfloat;
  l_is_safe : bool;
  l_ai_triggered : bool;
  l_analysis : option LatestAnalysis
}.

(** [latest]: the left value is the [{"error": ...}] object returned for an
    empty table; [.first()] without ordering takes the first matching row
    of the table. *)
Definition latest (db : Db) : pystr + LatestResponse :=
  match order_by_timestamp_desc (readings db) with
  | [] => inl (lit "No readings yet")
  | r :: _ =>
      let a := find (fun a => (a_reading_id a =? r_id r)%Z) (analyses db) in
      let analysis :=
        match a with
        | None => None
        | Some a =>
            Some (mkLatestAnalysis (a_analysis a) (a_status a)
                                   (a_recommendations a))
        end in
      inr (mkLatestResponse (r_id r) (r_timestamp r) (r_TDS r)
                            (r_temperature r) (r_is_safe r)
                            (r_ai_triggered r) analysis)
  end.

(** [LIMIT n] for an [n] SQLite accepts: a negative limit is no limit. *)
Definition sql_limit (A : Type) (limit : Z) (l : list A) : list A :=
  if (limit <? 0)%Z then l else firstn (Z.to_nat limit) l.

(** [recent_analyses]: the count and the rows returned; each item of the
    response carries the seven columns of its row. The limit is bound as a
    parameter of the query: [None] is the OverflowError raised for an
    integer outside the signed 64-bit range. *)
Definition recent_analyses (limit : Z) (db : Db)
  : option (nat * list Analysis) :=
  if sqlite_int_ok limit then
    let rows := sql_limit limit (order_by_desc a_timestamp (analyses db)) in
    Some (List.length rows, rows)
  else None.

(** The ["gemini"] field of [health]. *)
Definition health_gemini (GEMINI_API_KEY : pystr) : pystr :=
  if nonempty GEMINI_API_KEY then lit "configured" else lit "not configured".

(** *** stats *)

Record StatsResponse : Type := mkStatsResponse {
  s_period_hours : Z;
  s_total_readings : nat;
  s_anomalies_detected : nat;
  s_ai_analyses : nat;
  s_api_call_savings : pystr;
  s_readings_per_hour : pyfloat;
  s_downtime_prevented_hours : pyfloat;
  s_cost_savings_usd : pystr
}.

Section Stats.

(** The float arithmetic and formatting of [stats], as functions of the
    integers they are computed from:
    [f"{((total - analyses) / total * 100):.1f}%"],
    [round(total / hours, 1)], [round(analyses * 0.5, 2)] and
    [f"${analyses * 0.5 * 540000:,.0f}"]. *)
Variable fmt_savings : nat -> nat -> pystr.
Variable rate_per_hour : nat -> Z -> pyfloat.
Variable downtime_hours : nat -> pyfloat.
Variable fmt_cost : nat -> pystr.

(** [None] when computing [since] raises; the integer [0] of the
    [readings_per_hour] guard is carried as the float of the same value. *)
Definition stats (now : datetime) (hours : Z) (db : Db) : option StatsResponse :=
  match timedelta_hours hours with
  | None => None
  | Some delta =>
      match datetime_sub now delta with
      | None => None
      | Some since =>
          let total :=
            List.length
              (filter (fun r => (since <=? r_timestamp r)%Z) (readings db)) in
          let unsafe :=
            List.length
              (filter (fun r => (since <=? r_timestamp r)%Z
                                && Bool.eqb (r_ai_triggered r) true)
                      (readings db)) in
          let n_analyses :=
            List.length
              (filter (fun a => (since <=? a_timestamp a)%Z) (analyses db)) in
          let savings :=
            if (0 <? total)%nat then fmt_savings total n_analyses
            else lit "0%" in
          Some (mkStatsResponse
                  hours total unsafe n_analyses savings
                  (if (0 <? hours)%Z then rate_per_hour total hours
                   else of_int 0)
                  (downtime_hours n_analyses)
                  (fmt_cost n_analyses))
      end
  end.

End Stats.

(** *** Runs of the server *)

(** A request that changes the store. *)
Inductive Op : Type :=
| Ingest (env : Env) (data : SensorInput)
| Clear.

Definition step (float_repr : pyfloat -> pystr) (upper : pystr -> pystr)
    (GEMINI_API_KEY : pystr) (w : World) (op : Op) : World :=
  match op with
  | Ingest env data =>
      snd (receive_data float_repr upper GEMINI_API_KEY env data w)
  | Clear => mkWorld (snd (clear_data (w_db w))) (w_ai_calls w)
  end.

Definition run (float_repr : pyfloat -> pystr) (upper : pystr -> pystr)
    (GEMINI_API_KEY : pystr) (ops : list Op) (w : World) : World :=
  fold_left (step float_repr upper GEMINI_API_KEY) ops w.

(** *** Statements about the store *)

Definition severity_max (a b : severity) : severity :=
  if (severity_rank a <=? severity_rank b)%nat then b else a.

(** [x > y] for a stored value [x]; a NULL is above nothing. *)
Definition stored_gt (x : option pyfloat) (y : pyfloat) : bool :=
  match x with
  | Some t => (t >? y)%F
  | None => false
  end.

(** A reading that passed the TDS cutoff of the cost gate. *)
Definition gated_reading (r : Reading) : Prop :=
  stored_gt (r_TDS r) (of_int 1000) = true
  /\ r_is_safe r = false /\ r_ai_triggered r = true.

Definition analysis_linked (db : Db) (a : Analysis) : Prop :=
  exists r, In r (readings db) /\ r_id r = a_reading_id a /\ gated_reading r.

Definition analysis_wellformed (a : Analysis) : Prop :=
  a_status a <> safe
  /\ (1 <= List.length (a_recommendations a) <= 3)%nat
  /\ Forall (fun s => s <> []) (a_recommendations a).

Record db_wf (db : Db) : Prop := mkDbWf {
  wf_reading_ids : NoDup (map r_id (readings db));
  wf_reading_pos : Forall (fun r => (1 <= r_id r)%Z) (readings db);
  wf_analysis_ids : NoDup (map a_id (analyses db));
  wf_analysis_pos : Forall (fun a => (1 <= a_id a)%Z) (analyses db);
  wf_links : Forall (analysis_linked db) (analyses db);
  wf_one_per_reading : NoDup (map a_reading_id (analyses db));
  wf_rows : Forall analysis_wellformed (analyses db);
  wf_flags :
    Forall (fun r => r_ai_triggered r = negb (r_is_safe r)) (readings db)
}.

(** The part of a response that does not depend on the AI service. *)
Definition response_core (r : Response)
  : Z * datetime * option pyfloat * option pyfloat * bool * bool * severity
    * list pystr :=
  (resp_id r, resp_timestamp r, resp_TDS r, resp_temperature r,
   resp_is_safe r, resp_ai_triggered r, resp_severity r, resp_issues r).

(** What [latest] shows of the analysis a response carried. *)
Definition latest_view (ad : option AnalysisData) : option LatestAnalysis :=
  match ad with
  | None => None
  | Some ad =>
      Some (mkLatestAnalysis (ad_analysis ad) (ad_status ad)
                             (ad_recommendations ad))
  end.

(** *** Statements about the queries *)

Definition desc_sorted (A : Type) (key : A -> Z) (l : list A) : Prop :=
  Sorted (fun a b => (key b <= key a)%Z) l.

(** The item [history] builds from a row. *)
Definition history_item (r : Reading) : HistoryItem :=
  mkHistoryItem (r_timestamp r) (r_TDS r) (r_temperature r) (r_is_safe r).

(** [Reading.timestamp >= since] *)
Definition in_window (since : datetime) (r : Reading) : bool :=
  (since <=? r_timestamp r)%Z.

Definition asc_sorted (l : list HistoryItem) : Prop :=
  Sorted (fun a b => (h_timestamp a <= h_timestamp b)%Z) l.

(** The ingestions of a run that pass the cost gate. *)
Definition gated_op (key : pystr) (op : Op) : bool :=
  match op with
  | Ingest _ data => should_call_ai key data
  | Clear => false
  end.

Definition gated_ingests (key : pystr) (ops : list Op) : nat :=
  List.length (filter (gated_op key) ops).

(** *** Sample inputs *)

(** A float printer that is right on the integral values used below
    ([300.0], [1100.0], ...). *)
Definition sample_float_repr (x : pyfloat) : pystr :=
  match x with
  | Fin q => int_repr (Qnum q / Zpos (Qden q)) ++ lit ".0"
  | PosInf => lit "inf"
  | NegInf => lit "-inf"
  | NaN => lit "nan"
  end.

Definition sample_key : pystr := lit "sample-key".

(** A moment in the year 2025, in microseconds from [datetime.min]. *)
Definition sample_now : datetime := 63900000000000000%Z.

(** A service whose every call raises. *)
Definition failing_env : Env := mkEnv sample_now (fun _ => None) 0%Z sample_now.

Definition empty_world : World := mkWorld (mkDb [] []) [].

(** A service that answers every request with [sample_ai_text]. *)
Definition answering_env (text : pystr) : Env :=
  mkEnv sample_now (fun _ => Some text) 850%Z (sample_now + 850000)%Z.

(** A store holding one reading taken at [sample_now]. *)
Definition sample_db : Db :=
  mkDb [mkReading 1 sample_now (Some (of_int 300)) (Some (of_int 22))
                  true false] [].

Definition newline : pystr := [10%N].

(** An AI answer in the requested format, with a lower-case marker. *)
Definition sample_ai_text : pystr :=
  lit "IMPACT:" ++ newline ++ lit "Scaling shortens pump life." ++ newline
    ++ lit "actions:" ++ newline
    ++ lit "1. Flush filter" ++ newline ++ lit "2. Recalibrate sensor".

(** The world after one reading of 1100 ppm was ingested at [sample_now]
    and analysed: one Reading row and one Analysis row. *)
Definition stored_world : World :=
  snd (receive_data sample_float_repr upper_ascii_text sample_key
         (answering_env sample_ai_text)
         (mkSensorInput (of_int 1100) (of_int 22)) empty_world).

(* ====================================================================== *)
(** ** Properties *)
(* ====================================================================== *)

(** *** Float comparisons *)

Lemma Qlt_bool_iff (x y : Q) : Qlt_bool x y = true <-> (x < y)%Q.
Proof. unfold Qlt_bool, Qlt. apply Z.ltb_lt. Qed.

Lemma Qlt_bool_spec (x y : Q) : reflect (x < y)%Q (Qlt_bool x y).
Proof. apply iff_reflect. symmetry. apply Qlt_bool_iff. Qed.

Lemma Qle_bool_spec (x y : Q) : reflect (x <= y)%Q (Qle_bool x y).
Proof. apply iff_reflect. symmetry. apply Qle_bool_iff. Qed.

(** Case analysis on every comparison of a finite float with a threshold. *)
Ltac float_cases :=
  repeat match goal with
  | |- context [Qlt_bool ?a ?b] => destruct (Qlt_bool_spec a b)
  | |- context [Qle_bool ?a ?b] => destruct (Qle_bool_spec a b)
  | H : context [Qlt_bool ?a ?b] |- _ => destruct (Qlt_bool_spec a b)
  | H : context [Qle_bool ?a ?b] |- _ => destruct (Qle_bool_spec a b)
  end.

(** Unfold the classifier down to rational comparisons. *)
Ltac classify tds temp :=
  unfold cls_trigger, cls_severity, cls_issues, check_thresholds,
    check_temperature, check_tds, raise_to_warning, fgt, fge, of_int in *;
  destruct tds as [tq | | |]; destruct temp as [cq | | |];
  cbn [flt fle fst snd THRESHOLDS th_TDS th_temperature tds_optimal_min
       tds_optimal_max tds_warning_max tds_critical_max temp_optimal_min
       temp_optimal_max temp_warning_min temp_warning_max temp_critical_min
       temp_critical_max orb andb negb severity_eqb] in *;
  unfold inject_Z in *;
  float_cases;
  cbn [fst snd orb andb negb severity_eqb List.length app] in *.

Section ClassifierProperties.

Variable float_repr : pyfloat -> pystr.

(** *** The threshold classifier *)

(** C3. For every pair with 60 < TDS <= 500 and 18 <= temperature <= 27
    the classifier returns severity exactly "safe" (and so reports no
    issue and does not trigger). *)
Theorem safe_band_is_safe (tds temp : pyfloat) :
  (of_int 60 <? tds)%F = true -> (tds <=? of_int 500)%F = true ->
  (of_int 18 <=? temp)%F = true -> (temp <=? of_int 27)%F = true ->
  cls_severity (check_thresholds float_repr tds temp) = safe.
Proof.
  intros Hlo Hhi Tlo Thi.
  classify tds temp; try discriminate; try reflexivity; lra.
Qed.

(** C2, amended. For every pair, if TDS < 60 or TDS >= 1500 then the
    severity returned by the classifier is not "safe", whatever the
    temperature. *)
Theorem tds_out_of_band_not_safe (tds temp : pyfloat) :
  (tds <? of_int 60)%F = true \/ (tds >=? of_int 1500)%F = true ->
  cls_severity (check_thresholds float_repr tds temp) <> safe.
Proof.
  intros [H | H]; classify tds temp; try discriminate; lra.
Qed.

(** The temperature chain never lowers the severity it is handed. *)
Lemma check_temperature_monotone (temp : pyfloat) (st : severity * list pystr) :
  severity_le (fst st) (fst (check_temperature float_repr temp st)).
Proof.
  destruct st as [sev issues].
  unfold severity_le, check_temperature, raise_to_warning.
  destruct sev; cbn [severity_eqb];
    repeat match goal with
           | |- context [if ?c then _ else _] => destruct c
           end; cbn; lia.
Qed.

(** The TDS chain starts from "safe", so whatever it sets is a raise. *)
Lemma check_tds_from_safe (tds : pyfloat) :
  severity_le safe (fst (check_tds float_repr tds (safe, []))).
Proof. unfold severity_le. cbn. lia. Qed.

(** A critical temperature makes the result critical from any state. *)
Lemma check_temperature_critical (temp : pyfloat) (st : severity * list pystr) :
  (temp <? of_int 10)%F = true \/ (temp >? of_int 35)%F = true ->
  fst (check_temperature float_repr temp st) = critical.
Proof.
  intros H. destruct st as [sev issues]. unfold check_temperature.
  cbn [THRESHOLDS th_temperature temp_critical_min temp_critical_max].
  destruct H as [-> | ->]; [reflexivity | rewrite orb_true_r; reflexivity].
Qed.

Lemma cls_severity_unfold (tds temp : pyfloat) :
  cls_severity (check_thresholds float_repr tds temp)
  = fst (check_temperature float_repr temp (check_tds float_repr tds (safe, []))).
Proof.
  unfold check_thresholds, cls_severity.
  destruct (check_temperature _ _ _) as [sev issues]. reflexivity.
Qed.

(** C4. Within one evaluation the severity only moves upward along
    safe -> warning -> critical: the value after the TDS chain is at least
    the initial "safe", the value after the temperature chain (the one
    returned) is at least the value after the TDS chain, so a "critical"
    set by the TDS chain is kept; the temperature chain lowers no severity
    it could be handed; and a temperature outside [10, 35] makes the
    result "critical" whichever TDS tier was taken. *)
Theorem severity_monotone_in_evaluation (tds temp : pyfloat) :
  let s0 := safe in
  let st1 := check_tds float_repr tds (s0, []) in
  let st2 := check_temperature float_repr temp st1 in
  cls_severity (check_thresholds float_repr tds temp) = fst st2
  /\ severity_le s0 (fst st1)
  /\ severity_le (fst st1) (fst st2)
  /\ (fst st1 = critical -> fst st2 = critical)
  /\ (forall st, severity_le (fst st) (fst (check_temperature float_repr temp st)))
  /\ ((temp <? of_int 10)%F = true \/ (temp >? of_int 35)%F = true ->
      cls_severity (check_thresholds float_repr tds temp) = critical).
Proof.
  intros s0 st1 st2.
  assert (Hmono : severity_le (fst st1) (fst st2))
    by apply check_temperature_monotone.
  repeat split.
  - apply cls_severity_unfold.
  - apply check_tds_from_safe.
  - exact Hmono.
  - intros Hc. unfold severity_le in Hmono. rewrite Hc in Hmono.
    destruct (fst st2); cbn in Hmono; try lia; reflexivity.
  - apply check_temperature_monotone.
  - intros H. rewrite cls_severity_unfold. now apply check_temperature_critical.
Qed.

(** C10. The classifier returns at most two issues, and its
    should_trigger component is true exactly when the issue list is
    non-empty. *)
Theorem issues_bounded_and_trigger (tds temp : pyfloat) :
  let r := check_thresholds float_repr tds temp in
  (List.length (cls_issues r) <= 2)%nat
  /\ (cls_trigger r = true <-> cls_issues r <> []).
Proof.
  classify tds temp;
    (split; [lia | split; [discriminate || (intros; discriminate) | ]]);
    first [reflexivity | intros H; exfalso; apply H; reflexivity].
Qed.

(** The two flags derived from the severity are complements. *)
Lemma trigger_is_not_safe (tds temp : pyfloat) :
  let r := check_thresholds float_repr tds temp in
  cls_trigger r = negb (severity_eqb (cls_severity r) safe).
Proof.
  unfold check_thresholds, cls_trigger, cls_severity.
  destruct (check_temperature _ _ _) as [sev issues]. reflexivity.
Qed.

(** Above 500 ppm the TDS chain always reports an issue. *)
Lemma high_tds_has_issue (tds temp : pyfloat) :
  (tds >? of_int 500)%F = true ->
  cls_issues (check_thresholds float_repr tds temp) <> [].
Proof.
  intros H. classify tds temp; try discriminate; lra.
Qed.

End ClassifierProperties.

(** *** Ingestion *)

Lemma app_one_neq (A : Type) (l : list A) (x : A) : l ++ [x] <> l.
Proof.
  intros H. apply (f_equal (@List.length A)) in H.
  rewrite length_app in H. cbn in H. lia.
Qed.

Lemma nonempty_true_iff (A : Type) (l : list A) : nonempty l = true <-> l <> [].
Proof. destruct l; cbn; split; congruence. Qed.

Section IngestionProperties.

Variable float_repr : pyfloat -> pystr.
Variable upper : pystr -> pystr.
Variable GEMINI_API_KEY : pystr.

Local Abbreviation receive := (receive_data float_repr upper GEMINI_API_KEY).
Local Abbreviation gate := (should_call_ai GEMINI_API_KEY).

(** What [receive_data] does when the gate is closed. *)
Lemma receive_data_gate_closed (env : Env) (data : SensorInput) (w : World) :
  gate data = false ->
  let r := check_thresholds float_repr (TDS data) (temperature data) in
  let reading := request_reading float_repr env data w in
  receive env data w
  = (mkResponse (r_id reading) (r_timestamp reading) (r_TDS reading)
                (r_temperature reading) (r_is_safe reading) (cls_trigger r)
                (cls_severity r) (cls_issues r) None,
     mkWorld (add_reading (w_db w) reading) (w_ai_calls w)).
Proof.
  unfold receive_data, request_reading. intros ->.
  destruct (check_thresholds _ _ _) as [[trig sev] issues]. reflexivity.
Qed.

(** What [receive_data] does when the gate is open. *)
Lemma receive_data_gate_open (env : Env) (data : SensorInput) (w : World) :
  gate data = true ->
  let r := check_thresholds float_repr (TDS data) (temperature data) in
  let reading := request_reading float_repr env data w in
  let issues' := ensure_issues float_repr data (cls_issues r) in
  let w1 := mkWorld (add_reading (w_db w) reading) (w_ai_calls w) in
  let res := call_ai upper env data (cls_severity r) issues' (r_id reading) w1 in
  receive env data w
  = (mkResponse (r_id reading) (r_timestamp reading) (r_TDS reading)
                (r_temperature reading) (r_is_safe reading) (cls_trigger r)
                (cls_severity r) issues' (fst res),
     snd res).
Proof.
  unfold receive_data, request_reading. intros ->.
  destruct (check_thresholds _ _ _) as [[trig sev] issues].
  cbn [cls_severity cls_trigger cls_issues fst snd r_id].
  destruct (call_ai _ _ _ _ _ _ _) as [ad w2]. reflexivity.
Qed.

(** [call_ai] logs exactly one request, whatever the service answers. *)
Lemma call_ai_calls (env : Env) (data : SensorInput) (sev : severity)
    (issues : list pystr) (rid : Z) (w : World) :
  w_ai_calls (snd (call_ai upper env data sev issues rid w))
  = w_ai_calls w ++ [build_prompt upper data sev issues].
Proof.
  unfold call_ai. destruct (generate_content _ _); reflexivity.
Qed.

(** A failing service leaves the store as [call_ai] found it. *)
Lemma call_ai_failure (env : Env) (data : SensorInput) (sev : severity)
    (issues : list pystr) (rid : Z) (w : World) :
  generate_content env (build_prompt upper data sev issues) = None ->
  call_ai upper env data sev issues rid w
  = (None, mkWorld (w_db w) (w_ai_calls w ++ [build_prompt upper data sev issues])).
Proof. unfold call_ai. intros ->. reflexivity. Qed.

(** The requests [receive_data] adds to the log. *)
Lemma receive_data_calls (env : Env) (data : SensorInput) (w : World) :
  w_ai_calls (snd (receive env data w))
  = w_ai_calls w
    ++ (if gate data then [request_prompt float_repr upper data] else []).
Proof.
  destruct (gate data) eqn:G.
  - rewrite (receive_data_gate_open env data w G). cbn [snd].
    rewrite call_ai_calls. reflexivity.
  - rewrite (receive_data_gate_closed env data w G). cbn [snd w_ai_calls].
    now rewrite app_nil_r.
Qed.

Lemma gate_iff (data : SensorInput) :
  gate data = true
  <-> (TDS data >? of_int 1000)%F = true /\ GEMINI_API_KEY <> [].
Proof.
  unfold should_call_ai. rewrite andb_true_iff, nonempty_true_iff. tauto.
Qed.

Lemma le_1000_not_gt (tds : pyfloat) :
  (tds <=? of_int 1000)%F = true -> (tds >? of_int 1000)%F = false.
Proof.
  unfold fgt, of_int, inject_Z. destruct tds as [q | | |]; cbn [flt fle];
    try congruence.
  intros H. float_cases; try reflexivity; try discriminate. lra.
Qed.

(** C1. The AI service is invoked exactly when TDS > 1000 and a service
    key is configured; the severity plays no part. In particular a reading
    with TDS <= 1000 gets a null analysis and no request is made, also
    when it is flagged (ai_triggered true): the reading TDS = 300,
    temperature = 40 is critical, has ai_triggered true and a null
    analysis. *)
Theorem ai_invoked_iff_gate (env : Env) (data : SensorInput) (w : World) :
  let out := receive env data w in
  (w_ai_calls (snd out) <> w_ai_calls w
   <-> (TDS data >? of_int 1000)%F = true /\ GEMINI_API_KEY <> [])
  /\ w_ai_calls (snd out)
     = w_ai_calls w
       ++ (if (TDS data >? of_int 1000)%F && nonempty GEMINI_API_KEY
           then [request_prompt float_repr upper data] else [])
  /\ ((TDS data <=? of_int 1000)%F = true ->
      resp_analysis (fst out) = None
      /\ w_ai_calls (snd out) = w_ai_calls w
      /\ resp_ai_triggered (fst out)
         = negb (severity_eqb (resp_severity (fst out)) safe))
  /\ (forall env' w',
       let out' := receive env' (mkSensorInput (of_int 300) (of_int 40)) w' in
       resp_severity (fst out') = critical
       /\ resp_ai_triggered (fst out') = true
       /\ resp_is_safe (fst out') = false
       /\ resp_analysis (fst out') = None
       /\ w_ai_calls (snd out') = w_ai_calls w').
Proof.
  cbv zeta. pose proof (receive_data_calls env data w) as Hc.
  split; [| split; [exact Hc | split]].
  - rewrite <- gate_iff. split.
    + intros Hne. destruct (gate data); [reflexivity |].
      rewrite Hc, app_nil_r in Hne. congruence.
    + intros G. rewrite Hc, G. apply app_one_neq.
  - intros Hle.
    assert (G : gate data = false)
      by (unfold should_call_ai; now rewrite (le_1000_not_gt _ Hle)).
    rewrite (receive_data_gate_closed env data w G).
    cbn [fst snd resp_analysis resp_ai_triggered resp_severity w_ai_calls].
    repeat split. apply trigger_is_not_safe.
  - intros env' w'. repeat split.
Qed.

(** When the gate is open the classifier has already reported a TDS
    issue, since 1000 lies above the optimal bound 500. *)
Lemma gate_open_has_issue (data : SensorInput) :
  gate data = true ->
  cls_issues (check_thresholds float_repr (TDS data) (temperature data)) <> [].
Proof.
  intros G. apply gate_iff in G. destruct G as [G _].
  apply high_tds_has_issue.
  unfold fgt, of_int, inject_Z in *.
  destruct (TDS data) as [q | | |]; cbn [flt] in *; try congruence.
  float_cases; try reflexivity; try discriminate. lra.
Qed.

Lemma ensure_issues_nonempty (data : SensorInput) (issues : list pystr) :
  ensure_issues float_repr data issues <> [].
Proof.
  unfold ensure_issues. destruct issues; cbn; discriminate.
Qed.

(** C5. When the cost-gate passes, an empty issue list is replaced by the
    single default "high TDS" issue (a non-empty one is left as it is)
    before the request is built, so the one request that is then sent
    carries a non-empty issue list, the same list the response returns. *)
Theorem prompt_issues_never_empty (env : Env) (data : SensorInput) (w : World) :
  gate data = true ->
  let out := receive env data w in
  let classified :=
    cls_issues (check_thresholds float_repr (TDS data) (temperature data)) in
  ensure_issues float_repr data [] = [issue_high_tds float_repr (TDS data)]
  /\ (forall issues,
        ensure_issues float_repr data issues
        = match issues with
          | [] => [issue_high_tds float_repr (TDS data)]
          | _ :: _ => issues
          end)
  /\ exists p,
       w_ai_calls (snd out) = w_ai_calls w ++ [p]
       /\ p_issues p = ensure_issues float_repr data classified
       /\ p_issues p <> []
       /\ resp_issues (fst out) = p_issues p.
Proof.
  intros G out classified.
  split; [reflexivity | split; [intros [| i l]; reflexivity |]].
  exists (request_prompt float_repr upper data).
  subst out. rewrite receive_data_calls, G.
  rewrite (receive_data_gate_open env data w G).
  cbn [fst resp_issues request_prompt build_prompt p_issues].
  repeat split. apply ensure_issues_nonempty.
Qed.

(** C7. If the external call raises, the request still returns its
    response: the fields of the stored reading (its id, timestamp, flags
    and the two values as the table holds them, a NaN being held as NULL)
    with a null analysis; the Reading row inserted before the call is in
    the store, no Analysis row is added, and the log holds at most one
    request for this reading (exactly the one attempt when the gate was
    open). *)
Theorem ai_failure_is_contained (env : Env) (data : SensorInput) (w : World) :
  generate_content env (request_prompt float_repr upper data) = None ->
  let out := receive env data w in
  let reading := request_reading float_repr env data w in
  resp_analysis (fst out) = None
  /\ resp_id (fst out) = r_id reading
  /\ resp_timestamp (fst out) = r_timestamp reading
  /\ resp_TDS (fst out) = r_TDS reading
  /\ resp_temperature (fst out) = r_temperature reading
  /\ r_TDS reading = sqlite_real (TDS data)
  /\ r_temperature reading = sqlite_real (temperature data)
  /\ resp_is_safe (fst out) = r_is_safe reading
  /\ resp_ai_triggered (fst out) = r_ai_triggered reading
  /\ readings (w_db (snd out)) = readings (w_db w) ++ [reading]
  /\ analyses (w_db (snd out)) = analyses (w_db w)
  /\ w_ai_calls (snd out)
     = w_ai_calls w
       ++ (if gate data then [request_prompt float_repr upper data] else []).
Proof.
  intros Hfail out reading. subst out.
  destruct (gate data) eqn:G.
  - rewrite (receive_data_gate_open env data w G).
    unfold request_prompt in Hfail. rewrite (call_ai_failure _ _ _ _ _ _ Hfail).
    repeat split.
  - rewrite (receive_data_gate_closed env data w G).
    cbn [fst snd w_db w_ai_calls add_reading readings analyses].
    rewrite app_nil_r. repeat split.
Qed.

(** C9. For every ingested reading the two flags are exact complements,
    in the response and in the stored row: ai_triggered = not is_safe. *)
Theorem ai_triggered_is_not_is_safe (env : Env) (data : SensorInput) (w : World) :
  let out := receive env data w in
  resp_ai_triggered (fst out) = negb (resp_is_safe (fst out))
  /\ exists r,
       In r (readings (w_db (snd out)))
       /\ r_id r = resp_id (fst out)
       /\ r_is_safe r = resp_is_safe (fst out)
       /\ r_ai_triggered r = resp_ai_triggered (fst out)
       /\ r_ai_triggered r = negb (r_is_safe r).
Proof.
  cbv zeta.
  assert (Hr : r_ai_triggered (request_reading float_repr env data w)
               = negb (r_is_safe (request_reading float_repr env data w)))
    by apply trigger_is_not_safe.
  assert (Hdb : readings (w_db (snd (receive env data w)))
                = readings (w_db w) ++ [request_reading float_repr env data w]).
  { destruct (gate data) eqn:G.
    - rewrite (receive_data_gate_open env data w G). cbn [snd].
      unfold call_ai. destruct (generate_content _ _); reflexivity.
    - rewrite (receive_data_gate_closed env data w G). reflexivity. }
  assert (Hresp : resp_id (fst (receive env data w))
                  = r_id (request_reading float_repr env data w)
                  /\ resp_is_safe (fst (receive env data w))
                     = r_is_safe (request_reading float_repr env data w)
                  /\ resp_ai_triggered (fst (receive env data w))
                     = r_ai_triggered (request_reading float_repr env data w)).
  { destruct (gate data) eqn:G.
    - rewrite (receive_data_gate_open env data w G). repeat split.
    - rewrite (receive_data_gate_closed env data w G). repeat split. }
  destruct Hresp as (Hid & Hsafe & Htrig).
  split.
  - now rewrite Htrig, Hsafe.
  - exists (request_reading float_repr env data w). rewrite Hdb.
    repeat split; try congruence.
    apply in_or_app. right. now left.
Qed.

End IngestionProperties.

(** *** Recommendation extraction *)

Lemma split_lines_nonempty (s : pystr) : split_lines s <> [].
Proof.
  destruct s as [| c s]; cbn; [discriminate |].
  destruct (N.eqb c 10); [discriminate |].
  destruct (split_lines s); discriminate.
Qed.

Lemma firstn_3_length (A : Type) (l : list A) : (List.length (firstn 3 l) <= 3)%nat.
Proof. apply firstn_le_length. Qed.

Section ParserProperties.

Variable upper : pystr -> pystr.
Hypothesis upper_ascii : upper_on_ascii upper.

(** A line without the marker leaves the loop outside the ACTIONS block. *)
Lemma scan_line_outside (line : pystr) (recs : list pystr) :
  contains ACTIONS_MARKER (upper line) = false ->
  scan_line upper line (false, recs) = (false, recs).
Proof. unfold scan_line, ACTIONS_MARKER. intros ->. reflexivity. Qed.

Lemma scan_lines_outside (lines : list pystr) (recs : list pystr) :
  (forall l, In l lines -> contains ACTIONS_MARKER (upper l) = false) ->
  scan_lines upper lines (false, recs) = (false, recs).
Proof.
  unfold scan_lines. induction lines as [| l lines IH]; intros H; cbn [fold_left].
  - reflexivity.
  - rewrite scan_line_outside by (apply H; now left).
    apply IH. intros l' Hin. apply H. now right.
Qed.

(** A marker line opens the block and is itself skipped. *)
Lemma scan_line_marker (line : pystr) (st : bool * list pystr) :
  contains ACTIONS_MARKER (upper line) = true ->
  scan_line upper line st = (true, snd st).
Proof.
  unfold scan_line, ACTIONS_MARKER. destruct st as [b recs]. intros ->.
  reflexivity.
Qed.

(** On an ASCII line the loop body only needs the ASCII case mapping. *)
Lemma scan_line_ascii (line : pystr) (st : bool * list pystr) :
  forallb is_ascii line = true ->
  scan_line upper line st = scan_line upper_ascii_text line st.
Proof.
  intros H. unfold scan_line. now rewrite (upper_ascii line H).
Qed.

(** C6. Given text whose lines end with a line matching the "ACTIONS:"
    marker (through [upper], so in any letter case) followed by
    "1. Flush filter" and "2. Recalibrate sensor", with no marker line
    before, parsing yields exactly ["Flush filter"; "Recalibrate sensor"];
    ASCII lines that differ only in letter case match the marker alike;
    when nothing is parsed the fixed three-item fallback list is taken;
    and at most three recommendations are kept. *)
Theorem extract_recommendations_spec :
  (forall (text : pystr) (before : list pystr) (marker : pystr),
     split_lines text
     = before ++ [marker; lit "1. Flush filter"; lit "2. Recalibrate sensor"] ->
     (forall l, In l before -> contains ACTIONS_MARKER (upper l) = false) ->
     contains ACTIONS_MARKER (upper marker) = true ->
     extract_recommendations upper text
     = [lit "Flush filter"; lit "Recalibrate sensor"])
  /\ (forall m m' : pystr,
        forallb is_ascii m = true -> forallb is_ascii m' = true ->
        map ascii_upper m = map ascii_upper m' ->
        contains ACTIONS_MARKER (upper m) = contains ACTIONS_MARKER (upper m'))
  /\ (forall text : pystr,
        parse_recs upper text = [] ->
        extract_recommendations upper text = FALLBACK_RECS)
  /\ List.length FALLBACK_RECS = 3%nat
  /\ (forall text : pystr,
        (List.length (extract_recommendations upper text) <= 3)%nat).
Proof.
  split; [| split; [| split; [| split]]].
  - intros text before marker Hsplit Hbefore Hmarker.
    unfold extract_recommendations, parse_recs. rewrite Hsplit.
    unfold scan_lines. rewrite fold_left_app.
    fold (scan_lines upper before (false, [])).
    rewrite (scan_lines_outside before [] Hbefore).
    cbn [fold_left]. rewrite (scan_line_marker _ _ Hmarker). cbn [snd].
    rewrite !scan_line_ascii by reflexivity.
    reflexivity.
  - intros m m' Hm Hm' Heq.
    now rewrite (upper_ascii m Hm), (upper_ascii m' Hm'), Heq.
  - intros text Hnone. unfold extract_recommendations. rewrite Hnone.
    reflexivity.
  - reflexivity.
  - intros text. apply firstn_3_length.
Qed.

(** On success [call_ai] stores and returns the extracted list. *)
Lemma call_ai_success (env : Env) (data : SensorInput) (sev : severity)
    (issues : list pystr) (rid : Z) (w : World) (text : pystr) :
  generate_content env (build_prompt upper data sev issues) = Some text ->
  exists ad a,
    call_ai upper env data sev issues rid w
    = (Some ad,
       mkWorld (add_analysis (w_db w) a)
               (w_ai_calls w ++ [build_prompt upper data sev issues]))
    /\ ad_recommendations ad = extract_recommendations upper text
    /\ a_recommendations a = extract_recommendations upper text
    /\ a_reading_id a = rid.
Proof.
  intros H. unfold call_ai. rewrite H. do 2 eexists. repeat split.
Qed.

End ParserProperties.

(** *** History after a clear *)

Lemma history_empty (now : datetime) (hours : Z) (db : Db) :
  readings db = [] ->
  history now hours db
  = if window_ok now hours then Some (mkHistoryResponse 0 hours []) else None.
Proof.
  intros Hr. unfold history, window_ok, timedelta_hours, datetime_sub.
  destruct ((- MAX_DELTA_DAYS <=? hours / 24)%Z && (hours / 24 <=? MAX_DELTA_DAYS)%Z);
    [| reflexivity].
  cbn [andb]. destruct (datetime_ok _); [| reflexivity].
  rewrite Hr. reflexivity.
Qed.

Lemma clear_data_empties (db : Db) :
  readings (snd (clear_data db)) = [] /\ analyses (snd (clear_data db)) = [].
Proof. split; reflexivity. Qed.

(** C8, amended. After clear_data a history query returns count 0 and an
    empty data list for every lookback window whose start can be computed:
    [hours] within the range of a timedelta and [now - hours] a
    representable date. *)
Theorem history_after_clear (now : datetime) (hours : Z) (db : Db) :
  window_ok now hours = true ->
  history now hours (snd (clear_data db))
  = Some (mkHistoryResponse 0 hours []).
Proof.
  intros Hok. rewrite history_empty by apply clear_data_empties.
  now rewrite Hok.
Qed.

(** For the other windows the query raises, cleared store or not. *)
Lemma history_bad_window (now : datetime) (hours : Z) (db : Db) :
  window_ok now hours = false -> history now hours db = None.
Proof.
  unfold history, window_ok, timedelta_hours, datetime_sub.
  destruct ((- MAX_DELTA_DAYS <=? hours / 24)%Z && (hours / 24 <=? MAX_DELTA_DAYS)%Z);
    [| reflexivity].
  cbn [andb]. now intros ->.
Qed.

(** *** Instances *)

(** C2 as stated fails at the lower bound itself: TDS = 60 satisfies
    TDS <= 60, and with temperature 20 the reading is "safe". *)
Lemma tds_60_is_safe :
  (of_int 60 <=? of_int 60)%F = true
  /\ check_thresholds sample_float_repr (of_int 60) (of_int 20)
     = (false, safe, []).
Proof. split; reflexivity. Qed.

(** TDS = 1500 is out of band and is classified "warning". *)
Lemma tds_out_of_band_not_safe_witness :
  (of_int 1500 >=? of_int 1500)%F = true
  /\ cls_severity (check_thresholds sample_float_repr (of_int 1500) (of_int 22))
     <> safe.
Proof.
  split; [reflexivity |].
  apply (tds_out_of_band_not_safe sample_float_repr (of_int 1500) (of_int 22)).
  right. reflexivity.
Defined.

(** TDS = 300 at 22 degrees lies in the safe band. *)
Lemma safe_band_is_safe_witness :
  cls_severity (check_thresholds sample_float_repr (of_int 300) (of_int 22))
  = safe.
Proof.
  apply (safe_band_is_safe sample_float_repr (of_int 300) (of_int 22));
    reflexivity.
Defined.

(** TDS = 1100 with a configured key: one request, with issues. *)
Lemma prompt_issues_never_empty_witness :
  exists p,
    w_ai_calls
      (snd (receive_data sample_float_repr upper_ascii_text sample_key
              failing_env (mkSensorInput (of_int 1100) (of_int 22)) empty_world))
    = w_ai_calls empty_world ++ [p]
    /\ p_issues p <> [].
Proof.
  destruct (prompt_issues_never_empty sample_float_repr upper_ascii_text
              sample_key failing_env (mkSensorInput (of_int 1100) (of_int 22))
              empty_world eq_refl) as (_ & _ & p & Hcalls & _ & Hne & _).
  exists p. split; assumption.
Defined.

(** TDS = 1100 with a NaN temperature against a service that raises: the
    analysis is null and the temperature comes back as NULL. *)
Lemma ai_failure_is_contained_witness :
  resp_analysis
    (fst (receive_data sample_float_repr upper_ascii_text sample_key
            failing_env (mkSensorInput (of_int 1100) NaN) empty_world))
  = None
  /\ resp_TDS
       (fst (receive_data sample_float_repr upper_ascii_text sample_key
               failing_env (mkSensorInput (of_int 1100) NaN) empty_world))
     = Some (of_int 1100)
  /\ resp_temperature
       (fst (receive_data sample_float_repr upper_ascii_text sample_key
               failing_env (mkSensorInput (of_int 1100) NaN) empty_world))
     = None.
Proof.
  destruct (ai_failure_is_contained sample_float_repr upper_ascii_text
              sample_key failing_env (mkSensorInput (of_int 1100) NaN)
              empty_world eq_refl)
    as (Ha & _ & _ & Ht & Hc & Hrt & Hrc & _).
  split; [exact Ha | split].
  - rewrite Ht. exact Hrt.
  - rewrite Hc. exact Hrc.
Defined.

Lemma upper_ascii_text_on_ascii : upper_on_ascii upper_ascii_text.
Proof. intros s _. reflexivity. Qed.

(** The sample answer, whose marker is written in lower case. *)
Lemma extract_recommendations_witness :
  extract_recommendations upper_ascii_text sample_ai_text
  = [lit "Flush filter"; lit "Recalibrate sensor"].
Proof.
  apply (proj1 (extract_recommendations_spec upper_ascii_text_on_ascii))
    with (before := [lit "IMPACT:"; lit "Scaling shortens pump life."])
         (marker := lit "actions:").
  - reflexivity.
  - intros l [<- | [<- | []]]; reflexivity.
  - reflexivity.
Defined.

(** The default 24-hour window after a clear. *)
Lemma history_after_clear_witness :
  history sample_now 24 (snd (clear_data sample_db))
  = Some (mkHistoryResponse 0 24 []).
Proof. apply (history_after_clear sample_now 24 sample_db). reflexivity. Defined.

(** C8 as stated fails for a window too long for a timedelta: the query
    raises instead of returning an empty result. *)
Lemma history_overflow_after_clear :
  history sample_now 24000000000 (snd (clear_data sample_db)) = None.
Proof. reflexivity. Qed.

(** The same for a window that starts before year 1. *)
Lemma history_before_year_one_after_clear :
  history sample_now 20000000 (snd (clear_data sample_db)) = None.
Proof. reflexivity. Qed.

(* ====================================================================== *)
(** ** Further properties of the code *)
(* ====================================================================== *)

(** *** The classifier, exactly *)

Section ClassifierShape.

Variable float_repr : pyfloat -> pystr.

(** X1. The classifier returns "safe" exactly when none of the four
    comparisons TDS < 60, TDS > 500, temperature < 15, temperature > 27
    holds: the temperature bound optimal_min = 18 is not consulted, and a
    NaN value fails every comparison. *)
Theorem safe_iff_no_comparison_fires (tds temp : pyfloat) :
  cls_severity (check_thresholds float_repr tds temp) = safe
  <-> ((tds <? of_int 60)%F = false /\ (tds >? of_int 500)%F = false
       /\ (temp <? of_int 15)%F = false /\ (temp >? of_int 27)%F = false).
Proof.
  classify tds temp; split;
    try (intros H; repeat split; first [reflexivity | discriminate | lra]);
    intros (A & B & C & D);
    first [reflexivity | discriminate | lra].
Qed.

(** X2. The classifier returns "critical" exactly when TDS > 1500 or the
    temperature is below 10 or above 35. *)
Theorem critical_iff (tds temp : pyfloat) :
  cls_severity (check_thresholds float_repr tds temp) = critical
  <-> ((tds >? of_int 1500)%F = true \/ (temp <? of_int 10)%F = true
       \/ (temp >? of_int 35)%F = true).
Proof.
  classify tds temp; split;
    try (intros H;
         first [discriminate
               | left; reflexivity
               | right; left; reflexivity
               | right; right; reflexivity
               | lra]);
    intros [A | [A | A]];
    first [reflexivity | discriminate | lra].
Qed.

(** X3. The two dimensions are judged independently: the issue list is
    the TDS issue (if any) followed by the temperature issue (if any),
    each as computed alone, and the severity is the larger of the two
    severities computed alone. *)
Theorem classifier_decomposes (tds temp : pyfloat) :
  let r := check_thresholds float_repr tds temp in
  let t := check_tds float_repr tds (safe, []) in
  let c := check_temperature float_repr temp (safe, []) in
  cls_issues r = snd t ++ snd c
  /\ cls_severity r = severity_max (fst t) (fst c)
  /\ cls_trigger r = negb (severity_eqb (severity_max (fst t) (fst c)) safe).
Proof.
  classify tds temp; repeat split.
Qed.

End ClassifierShape.

(** *** Ingestion, beyond the failure path *)

Lemma fold_max_ge (ids : list Z) (i : Z) :
  In i ids -> (i <= fold_right Z.max 0 ids)%Z.
Proof.
  induction ids as [| j ids IH]; cbn; [tauto |].
  intros [-> | H]; [lia | specialize (IH H); lia].
Qed.

Lemma next_id_fresh (ids : list Z) : ~ In (next_id ids) ids.
Proof.
  intros H. apply fold_max_ge in H. unfold next_id in H. lia.
Qed.

Lemma next_id_pos (ids : list Z) : (1 <= next_id ids)%Z.
Proof.
  unfold next_id. assert (0 <= fold_right Z.max 0 ids)%Z; [| lia].
  induction ids; cbn; lia.
Qed.

Lemma gate_health_closed (key : pystr) :
  nonempty key = false -> forall data, should_call_ai key data = false.
Proof. intros H data. unfold should_call_ai. rewrite H. apply andb_false_r. Qed.

Section IngestionShape.

Variable float_repr : pyfloat -> pystr.
Variable upper : pystr -> pystr.
Variable GEMINI_API_KEY : pystr.

Local Abbreviation receive := (receive_data float_repr upper GEMINI_API_KEY).
Local Abbreviation gate := (should_call_ai GEMINI_API_KEY).
Local Abbreviation classify_data data :=
  (check_thresholds float_repr (TDS data) (temperature data)).

(** The default-issue branch never changes the list: an open gate means
    TDS > 1000 > 500, so the classifier already reported an issue. *)
Lemma ensure_issues_noop (data : SensorInput) :
  gate data = true ->
  ensure_issues float_repr data (cls_issues (classify_data data))
  = cls_issues (classify_data data).
Proof.
  intros G. pose proof (gate_open_has_issue float_repr upper GEMINI_API_KEY data G) as Hne.
  unfold ensure_issues. destruct (cls_issues _); [congruence | reflexivity].
Qed.

(** X4. Everything in the response except the analysis is fixed by the
    reading, the clock and the stored ids: the id, the timestamp, the two
    values as the table gives them back (a NaN as NULL), the two flags,
    the severity and the issues of the classifier, whatever the service
    key, the AI service or the case mapping; in particular the issues
    returned are always the classifier's own list. *)
Theorem response_core_is_classifier (env : Env) (data : SensorInput) (w : World) :
  response_core (fst (receive env data w))
  = (next_id (map r_id (readings (w_db w))), utcnow_reading env,
     sqlite_real (TDS data), sqlite_real (temperature data),
     severity_eqb (cls_severity (classify_data data)) safe,
     cls_trigger (classify_data data),
     cls_severity (classify_data data),
     cls_issues (classify_data data)).
Proof.
  destruct (gate data) eqn:G.
  - rewrite (receive_data_gate_open float_repr upper GEMINI_API_KEY env data w G).
    unfold response_core. cbn [fst resp_id resp_timestamp resp_TDS
      resp_temperature resp_is_safe resp_ai_triggered resp_severity
      resp_issues request_reading r_id r_timestamp r_is_safe].
    now rewrite (ensure_issues_noop data G).
  - rewrite (receive_data_gate_closed float_repr upper GEMINI_API_KEY env data w G).
    reflexivity.
Qed.

(** X5. With an open gate and a service that answers, the response carries
    the answer, the severity, the extracted recommendations and the
    latency, and exactly one Analysis row holding the same values is
    appended, linked to the id of the reading stored by this request. *)
Theorem ai_success_is_stored (env : Env) (data : SensorInput) (w : World)
    (text : pystr) :
  gate data = true ->
  generate_content env (request_prompt float_repr upper data) = Some text ->
  let out := receive env data w in
  let sev := cls_severity (classify_data data) in
  let recs := extract_recommendations upper text in
  resp_analysis (fst out)
  = Some (mkAnalysisData text sev recs (elapsed_ms env))
  /\ readings (w_db (snd out))
     = readings (w_db w) ++ [request_reading float_repr env data w]
  /\ analyses (w_db (snd out))
     = analyses (w_db w)
       ++ [mkAnalysis (next_id (map a_id (analyses (w_db w))))
                      (utcnow_analysis env) (resp_id (fst out)) text sev
                      recs (elapsed_ms env)].
Proof.
  intros G Hai. cbv zeta.
  rewrite (receive_data_gate_open float_repr upper GEMINI_API_KEY env data w G).
  unfold request_prompt in Hai. unfold call_ai. rewrite Hai.
  repeat split.
Qed.

Lemma receive_data_store_change (env : Env) (data : SensorInput) (w : World) :
  readings (w_db (snd (receive env data w)))
  = readings (w_db w) ++ [request_reading float_repr env data w]
  /\ (analyses (w_db (snd (receive env data w))) = analyses (w_db w)
      \/ exists a, analyses (w_db (snd (receive env data w)))
                   = analyses (w_db w) ++ [a]
                   /\ a_reading_id a = resp_id (fst (receive env data w))
                   /\ gate data = true).
Proof.
  destruct (gate data) eqn:G.
  - rewrite (receive_data_gate_open float_repr upper GEMINI_API_KEY env data w G).
    unfold call_ai. destruct (generate_content _ _).
    + split; [reflexivity |]. right. eexists. repeat split.
    + split; [reflexivity |]. left. reflexivity.
  - rewrite (receive_data_gate_closed float_repr upper GEMINI_API_KEY env data w G).
    split; [reflexivity |]. left. reflexivity.
Qed.

(** X6. Each request stores exactly one Reading row, never removes or
    changes a stored row, and adds at most one Analysis row, which then
    carries the id of the response and belongs to a reading that passed
    the gate. *)
Theorem receive_data_appends (env : Env) (data : SensorInput) (w : World) :
  let out := receive env data w in
  readings (w_db (snd out))
  = readings (w_db w) ++ [request_reading float_repr env data w]
  /\ (analyses (w_db (snd out)) = analyses (w_db w)
      \/ exists a, analyses (w_db (snd out)) = analyses (w_db w) ++ [a]
                   /\ a_reading_id a = resp_id (fst out)
                   /\ gate data = true).
Proof. cbv zeta. apply receive_data_store_change. Qed.

End IngestionShape.

(** X7. The health endpoint and the cost gate read the key alike: health
    says "not configured" exactly when no reading can open the gate, and
    "configured" exactly when the gate is the TDS > 1000 test alone. *)
Theorem health_agrees_with_gate (key : pystr) :
  (health_gemini key = lit "not configured"
   <-> forall data, should_call_ai key data = false)
  /\ (health_gemini key = lit "configured"
      <-> forall data, should_call_ai key data = (TDS data >? of_int 1000)%F).
Proof.
  unfold health_gemini, should_call_ai. destruct key as [| c key]; cbn [nonempty].
  - split; split; intros H; try reflexivity.
    + intros data. apply andb_false_r.
    + discriminate.
    + specialize (H (mkSensorInput (of_int 1100) (of_int 22))). discriminate.
  - split; split; intros H; try reflexivity.
    + discriminate.
    + specialize (H (mkSensorInput (of_int 1100) (of_int 22))). discriminate.
    + intros data. apply andb_true_r.
Qed.

(** *** Recommendation lists *)

Lemma nonempty_true_ne (A : Type) (l : list A) : nonempty l = true -> l <> [].
Proof. destruct l; cbn; congruence. Qed.

Lemma firstn_incl_In (A : Type) (n : nat) (l : list A) (x : A) :
  In x (firstn n l) -> In x l.
Proof.
  intros H. rewrite <- (firstn_skipn n l). apply in_or_app. now left.
Qed.

Section ParserShape.

Variable upper : pystr -> pystr.

Lemma scan_line_keeps_nonempty (line : pystr) (st : bool * list pystr) :
  Forall (fun s => s <> []) (snd st) ->
  Forall (fun s => s <> []) (snd (scan_line upper line st)).
Proof.
  destruct st as [b recs]. unfold scan_line. intros H.
  destruct (contains _ _); [exact H |].
  destruct b; [| exact H].
  destruct (nonempty (strip line) && _); [| exact H].
  destruct (nonempty (strip (lstrip_chars enumeration_chars (strip line)))) eqn:E;
    [| exact H].
  cbn [snd]. apply Forall_app. split; [exact H |].
  constructor; [| constructor]. now apply nonempty_true_ne.
Qed.

Lemma scan_lines_keep_nonempty (lines : list pystr) (st : bool * list pystr) :
  Forall (fun s => s <> []) (snd st) ->
  Forall (fun s => s <> []) (snd (scan_lines upper lines st)).
Proof.
  unfold scan_lines. revert st.
  induction lines as [| l lines IH]; intros st H; cbn [fold_left].
  - exact H.
  - apply IH. now apply scan_line_keeps_nonempty.
Qed.

Lemma extract_recommendations_shape (text : pystr) :
  (1 <= List.length (extract_recommendations upper text) <= 3)%nat
  /\ Forall (fun s => s <> []) (extract_recommendations upper text).
Proof.
  unfold extract_recommendations, recs_or_fallback.
  destruct (parse_recs upper text) as [| r recs] eqn:E; cbn [nonempty].
  - split; [cbn; lia |]. repeat constructor; discriminate.
  - assert (H : Forall (fun s => s <> []) (r :: recs)).
    { rewrite <- E. unfold parse_recs. apply scan_lines_keep_nonempty.
      constructor. }
    split.
    + split; [cbn; lia | apply firstn_le_length].
    + apply Forall_forall. intros x Hx.
      rewrite Forall_forall in H. apply H. eapply firstn_incl_In; eauto.
Qed.

(** X8. Whatever the AI text, the recommendations kept are between one
    and three strings, none of them empty. *)
Theorem recommendations_one_to_three (text : pystr) :
  let recs := extract_recommendations upper text in
  (1 <= List.length recs <= 3)%nat /\ Forall (fun s => s <> []) recs.
Proof. cbv zeta. apply extract_recommendations_shape. Qed.

End ParserShape.

Lemma split_lines_app (a b : pystr) :
  split_lines (a ++ 10%N :: b) = split_lines a ++ split_lines b.
Proof.
  induction a as [| c a IH]; cbn [app split_lines].
  - reflexivity.
  - destruct (N.eqb c 10).
    + now rewrite IH.
    + rewrite IH. destruct (split_lines a) as [| l ls] eqn:E.
      * exfalso. now apply (split_lines_nonempty a).
      * reflexivity.
Qed.

Section ParserPrefix.

Variable upper : pystr -> pystr.

(** X9. Lines before the first marker line contribute nothing: if no line
    of [before] matches the marker, the text [before], newline, [rest]
    parses to the same recommendations as [rest] alone. *)
Theorem lines_before_marker_ignored (before rest : pystr) :
  (forall l, In l (split_lines before) ->
             contains ACTIONS_MARKER (upper l) = false) ->
  parse_recs upper (before ++ newline ++ rest) = parse_recs upper rest.
Proof.
  intros H. unfold parse_recs, newline. cbn [app].
  rewrite split_lines_app. unfold scan_lines. rewrite fold_left_app.
  fold (scan_lines upper (split_lines before) (false, [])).
  now rewrite (scan_lines_outside upper _ [] H).
Qed.

(** X10. A text none of whose lines matches the marker yields the fixed
    fallback list, numbered or dashed lines notwithstanding. *)
Theorem no_marker_gives_fallback (text : pystr) :
  (forall l, In l (split_lines text) ->
             contains ACTIONS_MARKER (upper l) = false) ->
  extract_recommendations upper text = FALLBACK_RECS.
Proof.
  intros H. unfold extract_recommendations, parse_recs.
  now rewrite (scan_lines_outside upper _ [] H).
Qed.

End ParserPrefix.

(** *** The store over runs of the server *)

Lemma NoDup_snoc (A : Type) (l : list A) (x : A) :
  NoDup l -> ~ In x l -> NoDup (l ++ [x]).
Proof.
  intros Hl Hx. apply NoDup_rev in Hl. rewrite <- (rev_involutive (l ++ [x])).
  apply NoDup_rev. rewrite rev_app_distr. cbn. constructor; [| exact Hl].
  now rewrite <- in_rev.
Qed.

Lemma analysis_linked_more (db : Db) (r : Reading) (a : Analysis) :
  analysis_linked db a -> analysis_linked (add_reading db r) a.
Proof.
  intros (r0 & Hin & Hid & Hg). exists r0.
  split; [cbn; apply in_or_app; now left | split; assumption].
Qed.

(** Above the gate's cutoff the classifier never says "safe". *)
Lemma above_cutoff_not_safe (float_repr : pyfloat -> pystr) (tds temp : pyfloat) :
  (tds >? of_int 1000)%F = true ->
  cls_severity (check_thresholds float_repr tds temp) <> safe.
Proof.
  intros H. classify tds temp; try discriminate; lra.
Qed.

Lemma db_wf_empty : db_wf (mkDb [] []).
Proof. constructor; cbn; constructor. Qed.

Section StoreInvariant.

Variable float_repr : pyfloat -> pystr.
Variable upper : pystr -> pystr.
Variable GEMINI_API_KEY : pystr.

Local Abbreviation receive := (receive_data float_repr upper GEMINI_API_KEY).
Local Abbreviation gate := (should_call_ai GEMINI_API_KEY).

(** A reading that opens the gate is stored as unsafe and flagged. *)
Lemma gated_request_reading (env : Env) (data : SensorInput) (w : World) :
  gate data = true -> gated_reading (request_reading float_repr env data w).
Proof.
  intros G. unfold gated_reading, request_reading.
  cbn [r_TDS r_is_safe r_ai_triggered].
  destruct (proj1 (gate_iff upper GEMINI_API_KEY data) G) as [Hg _].
  pose proof (above_cutoff_not_safe float_repr (TDS data) (temperature data) Hg)
    as Hns.
  pose proof (trigger_is_not_safe float_repr (TDS data) (temperature data)) as Hc.
  cbv zeta in Hc. rewrite Hc.
  assert (Hs : stored_gt (sqlite_real (TDS data)) (of_int 1000) = true).
  { destruct (TDS data); cbn [sqlite_real stored_gt]; assumption. }
  destruct (cls_severity _); [congruence | |]; repeat split; assumption.
Qed.

Lemma gated_severity_not_safe (data : SensorInput) :
  gate data = true ->
  cls_severity (check_thresholds float_repr (TDS data) (temperature data))
  <> safe.
Proof.
  intros G Hs.
  pose proof (gated_request_reading failing_env data empty_world G)
    as (_ & Hsafe & _).
  unfold request_reading in Hsafe. cbn [r_is_safe] in Hsafe.
  rewrite Hs in Hsafe. discriminate.
Qed.

Lemma add_reading_wf (db : Db) (r : Reading) :
  db_wf db ->
  r_id r = next_id (map r_id (readings db)) ->
  r_ai_triggered r = negb (r_is_safe r) ->
  db_wf (add_reading db r).
Proof.
  intros [H1 H2 H3 H4 H5 H6 H7 H8] Hid Hflag.
  constructor; cbn [add_reading readings analyses]; try assumption.
  - rewrite map_app. cbn. apply NoDup_snoc; [assumption |].
    rewrite Hid. apply next_id_fresh.
  - apply Forall_app. split; [assumption |].
    constructor; [| constructor]. rewrite Hid. apply next_id_pos.
  - eapply Forall_impl; [| exact H5]. intros a. apply analysis_linked_more.
  - apply Forall_app. split; [assumption |]. now constructor.
Qed.

Lemma add_analysis_wf (db : Db) (a : Analysis) :
  db_wf db ->
  a_id a = next_id (map a_id (analyses db)) ->
  analysis_linked db a ->
  ~ In (a_reading_id a) (map a_reading_id (analyses db)) ->
  analysis_wellformed a ->
  db_wf (add_analysis db a).
Proof.
  intros [H1 H2 H3 H4 H5 H6 H7 H8] Hid Hlink Hfresh Hwf.
  constructor; cbn [add_analysis readings analyses]; try assumption.
  - rewrite map_app. cbn. apply NoDup_snoc; [assumption |].
    rewrite Hid. apply next_id_fresh.
  - apply Forall_app. split; [assumption |].
    constructor; [| constructor]. rewrite Hid. apply next_id_pos.
  - apply Forall_app. split; [assumption |]. now constructor.
  - rewrite map_app. cbn. now apply NoDup_snoc.
  - apply Forall_app. split; [assumption |]. now constructor.
Qed.

(** No stored analysis points at the id the next reading will take. *)
Lemma next_reading_id_unlinked (db : Db) :
  db_wf db ->
  ~ In (next_id (map r_id (readings db))) (map a_reading_id (analyses db)).
Proof.
  intros Hwf Hin. apply in_map_iff in Hin. destruct Hin as (a & Ha & Hin).
  pose proof (wf_links Hwf) as Hl. rewrite Forall_forall in Hl.
  destruct (Hl a Hin) as (r & Hr & Hid & _).
  apply (next_id_fresh (map r_id (readings db))).
  rewrite <- Ha, <- Hid. now apply in_map.
Qed.

Lemma receive_data_wf (env : Env) (data : SensorInput) (w : World) :
  db_wf (w_db w) -> db_wf (w_db (snd (receive env data w))).
Proof.
  intros Hwf.
  assert (Hr : db_wf (add_reading (w_db w)
                        (request_reading float_repr env data w))).
  { apply add_reading_wf; [assumption | reflexivity |].
    apply trigger_is_not_safe. }
  destruct (gate data) eqn:G.
  - rewrite (receive_data_gate_open float_repr upper GEMINI_API_KEY env data w G).
    cbn [snd]. unfold call_ai. destruct (generate_content _ _) as [text |].
    + cbn [snd w_db w_ai_calls]. apply add_analysis_wf.
      * exact Hr.
      * reflexivity.
      * exists (request_reading float_repr env data w). repeat split.
        -- cbn. apply in_or_app. right. now left.
        -- now apply gated_request_reading.
        -- now apply gated_request_reading.
        -- now apply gated_request_reading.
      * cbn [a_reading_id add_reading analyses request_reading r_id].
        now apply next_reading_id_unlinked.
      * unfold analysis_wellformed. cbn [a_status a_recommendations].
        split; [now apply gated_severity_not_safe |].
        apply extract_recommendations_shape.
    + exact Hr.
  - rewrite (receive_data_gate_closed float_repr upper GEMINI_API_KEY env data w G).
    exact Hr.
Qed.

Lemma step_wf (w : World) (op : Op) :
  db_wf (w_db w) -> db_wf (w_db (step float_repr upper GEMINI_API_KEY w op)).
Proof.
  intros Hwf. destruct op as [env data |]; cbn [step].
  - now apply receive_data_wf.
  - apply db_wf_empty.
Qed.

Lemma run_wf (ops : list Op) (w : World) :
  db_wf (w_db w) -> db_wf (w_db (run float_repr upper GEMINI_API_KEY ops w)).
Proof.
  unfold run. revert w. induction ops as [| op ops IH]; intros w Hwf;
    cbn [fold_left]; [assumption |].
  apply IH. now apply step_wf.
Qed.

(** X11. In every store reached from the empty one by ingestions and
    clears, reading ids and analysis ids are unique and at least 1, and
    every stored reading has ai_triggered = not is_safe. *)
Theorem store_rows_unique (ops : list Op) :
  let db := w_db (run float_repr upper GEMINI_API_KEY ops empty_world) in
  NoDup (map r_id (readings db))
  /\ NoDup (map a_id (analyses db))
  /\ Forall (fun r => (1 <= r_id r)%Z
                      /\ r_ai_triggered r = negb (r_is_safe r)) (readings db)
  /\ Forall (fun a => (1 <= a_id a)%Z) (analyses db).
Proof.
  cbv zeta.
  destruct (run_wf ops empty_world db_wf_empty) as [H1 H2 H3 H4 H5 H6 H7 H8].
  repeat split; try assumption.
  rewrite Forall_forall in *. intros r Hr. split; auto.
Qed.

(** X12. In every such store each Analysis row references a stored
    Reading that passed the TDS > 1000 cutoff and is flagged unsafe, and
    no two Analysis rows reference the same reading. *)
Theorem analyses_linked_to_gated_readings (ops : list Op) :
  let db := w_db (run float_repr upper GEMINI_API_KEY ops empty_world) in
  Forall (analysis_linked db) (analyses db)
  /\ NoDup (map a_reading_id (analyses db)).
Proof.
  cbv zeta.
  destruct (run_wf ops empty_world db_wf_empty) as [H1 H2 H3 H4 H5 H6 H7 H8].
  split; assumption.
Qed.

(** X13. In every such store no Analysis row has status "safe", and each
    holds between one and three recommendations, none of them empty. *)
Theorem analysis_rows_wellformed (ops : list Op) :
  let db := w_db (run float_repr upper GEMINI_API_KEY ops empty_world) in
  Forall analysis_wellformed (analyses db).
Proof.
  cbv zeta. exact (wf_rows (run_wf ops empty_world db_wf_empty)).
Qed.

End StoreInvariant.

(** *** Sorting by timestamp *)

Section Ordering.

Variable A : Type.
Variable key : A -> Z.

Lemma insert_desc_In (x y : A) (l : list A) :
  In y (insert_desc key x l) <-> y = x \/ In y l.
Proof.
  induction l as [| z l IH]; cbn.
  - intuition congruence.
  - destruct (key z <? key x)%Z; cbn; [intuition congruence |].
    rewrite IH. intuition congruence.
Qed.

Lemma fold_insert_desc_In (y : A) (l acc : list A) :
  In y (fold_left (fun acc x => insert_desc key x acc) l acc)
  <-> In y acc \/ In y l.
Proof.
  revert acc. induction l as [| x l IH]; intros acc; cbn [fold_left].
  - cbn. tauto.
  - rewrite IH, insert_desc_In. cbn. intuition congruence.
Qed.

Lemma order_by_desc_In (y : A) (l : list A) :
  In y (order_by_desc key l) <-> In y l.
Proof. unfold order_by_desc. rewrite fold_insert_desc_In. cbn. tauto. Qed.

Lemma insert_desc_length (x : A) (l : list A) :
  List.length (insert_desc key x l) = S (List.length l).
Proof.
  induction l as [| z l IH]; cbn; [reflexivity |].
  destruct (key z <? key x)%Z; cbn; [reflexivity | now rewrite IH].
Qed.

Lemma fold_insert_desc_length (l acc : list A) :
  List.length (fold_left (fun acc x => insert_desc key x acc) l acc)
  = (List.length acc + List.length l)%nat.
Proof.
  revert acc. induction l as [| x l IH]; intros acc; cbn [fold_left].
  - cbn. lia.
  - rewrite IH, insert_desc_length. cbn. lia.
Qed.

Lemma order_by_desc_length (l : list A) :
  List.length (order_by_desc key l) = List.length l.
Proof. unfold order_by_desc. now rewrite fold_insert_desc_length. Qed.

Lemma order_by_desc_nil_iff (l : list A) : order_by_desc key l = [] <-> l = [].
Proof.
  split; intros H.
  - apply length_zero_iff_nil. rewrite <- order_by_desc_length, H. reflexivity.
  - subst. reflexivity.
Qed.

(** A row newer than all others comes first. *)
Lemma order_by_desc_snoc_newest (x : A) (l : list A) :
  (forall y, In y l -> (key y < key x)%Z) ->
  order_by_desc key (l ++ [x]) = x :: order_by_desc key l.
Proof.
  intros H. unfold order_by_desc. rewrite fold_left_app. cbn [fold_left].
  fold (order_by_desc key l).
  destruct (order_by_desc key l) as [| y s] eqn:E; cbn; [reflexivity |].
  assert (Hy : In y l) by (apply order_by_desc_In; rewrite E; now left).
  apply H in Hy. apply Z.ltb_lt in Hy. now rewrite Hy.
Qed.

Lemma insert_desc_sorted (x : A) (l : list A) :
  desc_sorted key l -> desc_sorted key (insert_desc key x l).
Proof.
  unfold desc_sorted. induction l as [| z l IH]; intros Hs; cbn.
  - repeat constructor.
  - destruct (key z <? key x)%Z eqn:E.
    + constructor; [assumption |]. constructor. apply Z.ltb_lt in E. lia.
    + apply Z.ltb_ge in E. inversion Hs as [| ? ? Hs' Hhd]; subst.
      constructor; [now apply IH |].
      destruct l as [| u l]; cbn.
      * now constructor.
      * destruct (key u <? key x)%Z; constructor; [assumption |].
        now inversion Hhd.
Qed.

Lemma order_by_desc_sorted (l : list A) : desc_sorted key (order_by_desc key l).
Proof.
  unfold order_by_desc.
  assert (H : forall acc, desc_sorted key acc ->
            desc_sorted key
              (fold_left (fun acc x => insert_desc key x acc) l acc)).
  { induction l as [| x l IH]; intros acc Hacc; cbn [fold_left];
      [assumption |]. apply IH. now apply insert_desc_sorted. }
  apply H. constructor.
Qed.

Lemma insert_desc_perm (x : A) (l : list A) :
  Permutation (insert_desc key x l) (x :: l).
Proof.
  induction l as [| z l IH]; cbn; [reflexivity |].
  destruct (key z <? key x)%Z; [reflexivity |].
  rewrite IH. apply perm_swap.
Qed.

Lemma order_by_desc_perm (l : list A) : Permutation (order_by_desc key l) l.
Proof.
  unfold order_by_desc.
  assert (H : forall acc,
            Permutation (fold_left (fun acc x => insert_desc key x acc) l acc)
                        (acc ++ l)).
  { induction l as [| x l IH]; intros acc; cbn [fold_left].
    - now rewrite app_nil_r.
    - rewrite IH, insert_desc_perm. cbn.
      apply Permutation_middle. }
  apply (H []).
Qed.

End Ordering.

Lemma find_none_app (A : Type) (f : A -> bool) (l l' : list A) :
  (forall x, In x l -> f x = false) -> find f (l ++ l') = find f l'.
Proof.
  induction l as [| x l IH]; intros H; cbn; [reflexivity |].
  rewrite (H x) by now left. apply IH. intros y Hy. apply H. now right.
Qed.

(** *** latest *)

Lemma insert_newest_first_perm (r : Reading) (l : list Reading) :
  Permutation (insert_newest_first r l) (r :: l).
Proof.
  induction l as [| z l IH]; cbn; [reflexivity |].
  destruct (r_timestamp z <=? r_timestamp r)%Z; [reflexivity |].
  rewrite IH. apply perm_swap.
Qed.

Lemma order_by_timestamp_desc_perm (l : list Reading) :
  Permutation (order_by_timestamp_desc l) l.
Proof.
  unfold order_by_timestamp_desc.
  assert (H : forall acc,
            Permutation (fold_left (fun acc r => insert_newest_first r acc) l acc)
                        (acc ++ l)).
  { induction l as [| x l IH]; intros acc; cbn [fold_left].
    - now rewrite app_nil_r.
    - rewrite IH, insert_newest_first_perm. cbn. apply Permutation_middle. }
  apply (H []).
Qed.

Lemma order_by_timestamp_desc_nil_iff (l : list Reading) :
  order_by_timestamp_desc l = [] <-> l = [].
Proof.
  split; intros H.
  - apply Permutation_nil. rewrite <- H.
    apply order_by_timestamp_desc_perm.
  - subst. reflexivity.
Qed.

(** A row inserted last and not older than the others comes first. *)
Lemma order_by_timestamp_desc_snoc (r : Reading) (l : list Reading) :
  (forall y, In y l -> (r_timestamp y <= r_timestamp r)%Z) ->
  order_by_timestamp_desc (l ++ [r]) = r :: order_by_timestamp_desc l.
Proof.
  intros H. unfold order_by_timestamp_desc. rewrite fold_left_app.
  cbn [fold_left]. fold (order_by_timestamp_desc l).
  destruct (order_by_timestamp_desc l) as [| y s] eqn:E; cbn; [reflexivity |].
  assert (Hy : In y l).
  { apply (Permutation_in _ (order_by_timestamp_desc_perm l)).
    rewrite E. now left. }
  apply H in Hy. apply Z.leb_le in Hy. now rewrite Hy.
Qed.

(** X14. [latest] answers with the error object exactly when the readings
    table is empty. *)
Theorem latest_error_iff_empty (db : Db) :
  latest db = inl (lit "No readings yet") <-> readings db = [].
Proof.
  unfold latest. split.
  - destruct (order_by_timestamp_desc (readings db)) eqn:E.
    + intros _. exact (proj1 (order_by_timestamp_desc_nil_iff _) E).
    + discriminate.
  - intros ->. reflexivity.
Qed.

Section LatestRoundTrip.

Variable float_repr : pyfloat -> pystr.
Variable upper : pystr -> pystr.
Variable GEMINI_API_KEY : pystr.

Local Abbreviation receive := (receive_data float_repr upper GEMINI_API_KEY).
Local Abbreviation gate := (should_call_ai GEMINI_API_KEY).

(** X15. Ingest then latest: on a well-formed store none of whose readings
    is newer than the clock, [latest] after [receive_data] returns the
    reading just ingested (also when an older row has the same timestamp),
    with the values and flags of the response and, when the response
    carried an analysis, its text, status and recommendations. *)
Theorem latest_after_ingest (env : Env) (data : SensorInput) (w : World) :
  db_wf (w_db w) ->
  Forall (fun r => (r_timestamp r <= utcnow_reading env)%Z) (readings (w_db w)) ->
  let out := receive env data w in
  latest (w_db (snd out))
  = inr (mkLatestResponse
           (resp_id (fst out)) (resp_timestamp (fst out)) (resp_TDS (fst out))
           (resp_temperature (fst out)) (resp_is_safe (fst out))
           (resp_ai_triggered (fst out))
           (latest_view (resp_analysis (fst out)))).
Proof.
  intros Hwf Hold. cbv zeta.
  set (reading := request_reading float_repr env data w).
  assert (Hfirst : order_by_timestamp_desc (readings (w_db w) ++ [reading])
                   = reading :: order_by_timestamp_desc (readings (w_db w))).
  { apply order_by_timestamp_desc_snoc. intros y Hy.
    rewrite Forall_forall in Hold. now apply Hold. }
  assert (Hnone : forall x, In x (analyses (w_db w)) ->
                    (a_reading_id x =? r_id reading)%Z = false).
  { intros x Hx. apply Z.eqb_neq. intros Heq.
    apply (next_reading_id_unlinked Hwf).
    unfold reading, request_reading in Heq. cbn [r_id] in Heq.
    rewrite <- Heq. now apply in_map. }
  assert (Hfind : find (fun a => (a_reading_id a =? r_id reading)%Z)
                       (analyses (w_db w)) = None).
  { rewrite <- (app_nil_r (analyses (w_db w))).
    now rewrite (@find_none_app _ _ _ [] Hnone). }
  destruct (gate data) eqn:G.
  - rewrite (receive_data_gate_open float_repr upper GEMINI_API_KEY env data w G).
    cbn [fst snd resp_id resp_timestamp resp_TDS resp_temperature resp_is_safe
         resp_ai_triggered resp_analysis].
    fold reading. unfold call_ai.
    destruct (generate_content _ _) as [text |];
      cbn [fst snd w_db w_ai_calls add_analysis add_reading readings analyses
           latest_view ad_analysis ad_status ad_recommendations];
      unfold latest, add_analysis, add_reading; cbn [readings analyses];
      rewrite Hfirst.
    + rewrite (@find_none_app _ _ _ _ Hnone). cbn [find a_reading_id].
      rewrite Z.eqb_refl. reflexivity.
    + rewrite Hfind. reflexivity.
  - rewrite (receive_data_gate_closed float_repr upper GEMINI_API_KEY env data w G).
    cbn [fst snd resp_id resp_timestamp resp_TDS resp_temperature resp_is_safe
         resp_ai_triggered resp_analysis w_db add_reading latest_view].
    fold reading. unfold latest, add_reading. cbn [readings analyses].
    rewrite Hfirst, Hfind.
    reflexivity.
Qed.

End LatestRoundTrip.

(** *** history *)

Lemma insert_by_timestamp_perm (r : Reading) (l : list Reading) :
  Permutation (insert_by_timestamp r l) (r :: l).
Proof.
  induction l as [| z l IH]; cbn; [reflexivity |].
  destruct (r_timestamp r <? r_timestamp z)%Z; [reflexivity |].
  rewrite IH. apply perm_swap.
Qed.

Lemma order_by_timestamp_perm (l : list Reading) :
  Permutation (order_by_timestamp l) l.
Proof.
  unfold order_by_timestamp.
  assert (H : forall acc,
            Permutation (fold_left (fun acc r => insert_by_timestamp r acc) l acc)
                        (acc ++ l)).
  { induction l as [| x l IH]; intros acc; cbn [fold_left].
    - now rewrite app_nil_r.
    - rewrite IH, insert_by_timestamp_perm. cbn. apply Permutation_middle. }
  apply (H []).
Qed.

Lemma insert_by_timestamp_sorted (r : Reading) (l : list Reading) :
  Sorted (fun a b => (r_timestamp a <= r_timestamp b)%Z) l ->
  Sorted (fun a b => (r_timestamp a <= r_timestamp b)%Z)
         (insert_by_timestamp r l).
Proof.
  induction l as [| z l IH]; intros Hs; cbn.
  - repeat constructor.
  - destruct (r_timestamp r <? r_timestamp z)%Z eqn:E.
    + constructor; [assumption |]. constructor. apply Z.ltb_lt in E. lia.
    + apply Z.ltb_ge in E. inversion Hs as [| ? ? Hs' Hhd]; subst.
      constructor; [now apply IH |].
      destruct l as [| u l]; cbn.
      * now constructor.
      * destruct (r_timestamp r <? r_timestamp u)%Z; constructor;
          [assumption |]. now inversion Hhd.
Qed.

Lemma order_by_timestamp_sorted (l : list Reading) :
  Sorted (fun a b => (r_timestamp a <= r_timestamp b)%Z) (order_by_timestamp l).
Proof.
  unfold order_by_timestamp.
  assert (H : forall acc,
            Sorted (fun a b => (r_timestamp a <= r_timestamp b)%Z) acc ->
            Sorted (fun a b => (r_timestamp a <= r_timestamp b)%Z)
              (fold_left (fun acc r => insert_by_timestamp r acc) l acc)).
  { induction l as [| x l IH]; intros acc Hacc; cbn [fold_left];
      [assumption |]. apply IH. now apply insert_by_timestamp_sorted. }
  apply H. constructor.
Qed.

Lemma map_item_sorted (l : list Reading) :
  Sorted (fun a b => (r_timestamp a <= r_timestamp b)%Z) l ->
  asc_sorted (map history_item l).
Proof.
  unfold asc_sorted. induction 1 as [| x l Hs IH Hhd]; cbn; constructor.
  - exact IH.
  - destruct Hhd; cbn; constructor. assumption.
Qed.

Lemma history_unfold (now : datetime) (hours : Z) (db : Db) :
  history now hours db
  = if window_ok now hours
    then
      let rows :=
        order_by_timestamp
          (filter (in_window (now - hours * US_PER_HOUR)%Z) (readings db)) in
      Some (mkHistoryResponse (List.length rows) hours (map history_item rows))
    else None.
Proof.
  unfold history, window_ok, timedelta_hours, datetime_sub.
  destruct ((- MAX_DELTA_DAYS <=? hours / 24)%Z && (hours / 24 <=? MAX_DELTA_DAYS)%Z);
    [| reflexivity].
  cbn [andb]. destruct (datetime_ok _); reflexivity.
Qed.

(** X16. For a window whose start can be computed, [history] returns the
    readings whose timestamp is not before [now - hours], each exactly
    once, in ascending timestamp order, and [count] is their number. *)
Theorem history_returns_window (now : datetime) (hours : Z) (db : Db) :
  window_ok now hours = true ->
  exists resp,
    history now hours db = Some resp
    /\ h_hours resp = hours
    /\ h_count resp = List.length (h_data resp)
    /\ Permutation (h_data resp)
         (map history_item
            (filter (in_window (now - hours * US_PER_HOUR)%Z) (readings db)))
    /\ asc_sorted (h_data resp)
    /\ Forall (fun it => (now - hours * US_PER_HOUR <= h_timestamp it)%Z)
              (h_data resp).
Proof.
  intros Hok. rewrite history_unfold, Hok. cbv zeta.
  eexists. split; [reflexivity |].
  cbn [h_hours h_count h_data].
  pose proof (order_by_timestamp_perm
                (filter (in_window (now - hours * US_PER_HOUR)%Z) (readings db)))
    as Hperm.
  repeat split.
  - now rewrite length_map.
  - now apply Permutation_map.
  - apply map_item_sorted, order_by_timestamp_sorted.
  - apply Forall_forall. intros it Hit. apply in_map_iff in Hit.
    destruct Hit as (r & <- & Hr).
    apply (Permutation_in _ Hperm) in Hr. apply filter_In in Hr.
    destruct Hr as [_ Hr]. unfold in_window in Hr. cbn. lia.
Qed.

(** X17. [history] raises exactly for the windows whose start cannot be
    computed, whatever the store holds. *)
Theorem history_fails_iff_bad_window (now : datetime) (hours : Z) (db : Db) :
  history now hours db = None <-> window_ok now hours = false.
Proof.
  rewrite history_unfold. destruct (window_ok now hours); split;
    congruence || discriminate.
Qed.

(** *** recent_analyses *)

Lemma Sorted_firstn (A : Type) (R : A -> A -> Prop) (n : nat) (l : list A) :
  Sorted R l -> Sorted R (firstn n l).
Proof.
  revert l. induction n as [| n IH]; intros l Hs; cbn; [constructor |].
  destruct l as [| x l]; [constructor |].
  inversion Hs as [| ? ? Hs' Hhd]; subst. constructor; [now apply IH |].
  destruct n; cbn; [constructor |].
  destruct l; [constructor |]. constructor. now inversion Hhd.
Qed.

(** X18. [recent_analyses] raises exactly when the limit is outside the
    signed 64-bit range; otherwise it returns [min limit n] of the [n]
    stored analyses for a limit >= 0 and all of them for a negative
    limit, the rows returned are stored rows, newest first, and [count]
    is their number. *)
Theorem recent_analyses_limit (limit : Z) (db : Db) :
  match recent_analyses limit db with
  | None => sqlite_int_ok limit = false
  | Some (count, rows) =>
      sqlite_int_ok limit = true
      /\ count = List.length rows
      /\ count
         = (if (limit <? 0)%Z then List.length (analyses db)
            else Nat.min (Z.to_nat limit) (List.length (analyses db)))
      /\ incl rows (analyses db)
      /\ desc_sorted a_timestamp rows
  end.
Proof.
  unfold recent_analyses. destruct (sqlite_int_ok limit); [| reflexivity].
  cbv zeta. unfold sql_limit.
  split; [reflexivity |]. split; [reflexivity |].
  destruct (limit <? 0)%Z.
  - split; [apply order_by_desc_length |]. split.
    + intros a Ha. now apply order_by_desc_In in Ha.
    + apply order_by_desc_sorted.
  - split; [now rewrite length_firstn, order_by_desc_length |]. split.
    + intros a Ha. apply firstn_incl_In in Ha. now apply order_by_desc_In in Ha.
    + apply Sorted_firstn, order_by_desc_sorted.
Qed.

(** *** clear_data *)

(** X19. After [clear_data] the store is empty and well formed, clearing
    again changes nothing, [latest] answers with the error object, and
    [recent_analyses] returns count 0 and no rows for every limit it
    accepts (it still raises for a limit outside the signed 64-bit
    range). *)
Theorem clear_data_resets (db : Db) (limit : Z) :
  let db' := snd (clear_data db) in
  db' = mkDb [] []
  /\ db_wf db'
  /\ snd (clear_data db') = db'
  /\ latest db' = inl (lit "No readings yet")
  /\ recent_analyses limit db'
     = (if sqlite_int_ok limit then Some (0%nat, []) else None).
Proof.
  cbv zeta. repeat split; try apply db_wf_empty.
  unfold recent_analyses, sql_limit. cbn [snd clear_data delete_readings
    delete_analyses analyses order_by_desc fold_left].
  destruct (sqlite_int_ok limit); [| reflexivity].
  destruct (limit <? 0)%Z; [reflexivity |]. now rewrite firstn_nil.
Qed.

(** *** The cost of a run *)

Section RunCost.

Variable float_repr : pyfloat -> pystr.
Variable upper : pystr -> pystr.
Variable GEMINI_API_KEY : pystr.

Local Abbreviation run_server := (run float_repr upper GEMINI_API_KEY).
Local Abbreviation step_server := (step float_repr upper GEMINI_API_KEY).

Lemma step_cost (w : World) (op : Op) :
  List.length (w_ai_calls (step_server w op))
  = (List.length (w_ai_calls w)
     + (if gated_op GEMINI_API_KEY op then 1 else 0))%nat
  /\ (List.length (analyses (w_db (step_server w op)))
      <= List.length (analyses (w_db w))
         + (if gated_op GEMINI_API_KEY op then 1 else 0))%nat.
Proof.
  destruct op as [env data |]; cbn [step gated_op].
  - rewrite receive_data_calls.
    destruct (receive_data_store_change float_repr upper GEMINI_API_KEY env data w)
      as [_ [Ha | (a & Ha & _ & G)]]; rewrite Ha.
    + destruct (should_call_ai GEMINI_API_KEY data);
        rewrite length_app; cbn; lia.
    + rewrite G, !length_app. cbn. lia.
  - cbn. lia.
Qed.

(** X20. Over any run of ingestions and clears, the number of requests sent
    to the AI service grows by exactly the number of ingested readings
    that pass the cost gate, and the number of Analysis rows grows by at
    most that number. *)
Theorem run_cost (ops : list Op) (w : World) :
  List.length (w_ai_calls (run_server ops w))
  = (List.length (w_ai_calls w) + gated_ingests GEMINI_API_KEY ops)%nat
  /\ (List.length (analyses (w_db (run_server ops w)))
      <= List.length (analyses (w_db w)) + gated_ingests GEMINI_API_KEY ops)%nat.
Proof.
  unfold run, gated_ingests. revert w.
  induction ops as [| op ops IH]; intros w; cbn [fold_left filter].
  - cbn. lia.
  - destruct (IH (step_server w op)) as [IH1 IH2].
    destruct (step_cost w op) as [S1 S2].
    destruct (gated_op GEMINI_API_KEY op); cbn [List.length]; lia.
Qed.

End RunCost.

(** *** Instances of the further properties *)

(** TDS = 1100 with a key and a service that answers [sample_ai_text]. *)
Lemma ai_success_is_stored_witness :
  resp_analysis
    (fst (receive_data sample_float_repr upper_ascii_text sample_key
            (answering_env sample_ai_text)
            (mkSensorInput (of_int 1100) (of_int 22)) empty_world))
  = Some (mkAnalysisData sample_ai_text warning
            [lit "Flush filter"; lit "Recalibrate sensor"] 850).
Proof.
  apply (ai_success_is_stored sample_float_repr upper_ascii_text sample_key
           (answering_env sample_ai_text)
           (mkSensorInput (of_int 1100) (of_int 22)) empty_world
           (text := sample_ai_text) eq_refl eq_refl).
Defined.

(** A numbered line ahead of the marker is not a recommendation. *)
Lemma lines_before_marker_ignored_witness :
  parse_recs upper_ascii_text
    (lit "1. Not an action" ++ newline
       ++ lit "ACTIONS:" ++ newline ++ lit "- Flush filter")
  = parse_recs upper_ascii_text
      (lit "ACTIONS:" ++ newline ++ lit "- Flush filter").
Proof.
  apply (lines_before_marker_ignored upper_ascii_text
           (lit "1. Not an action")
           (lit "ACTIONS:" ++ newline ++ lit "- Flush filter")).
  intros l [<- | []]. reflexivity.
Defined.

(** Numbered lines without any marker line. *)
Lemma no_marker_gives_fallback_witness :
  extract_recommendations upper_ascii_text
    (lit "1. Flush filter" ++ newline ++ lit "2. Recalibrate sensor")
  = FALLBACK_RECS.
Proof.
  apply (no_marker_gives_fallback upper_ascii_text
           (lit "1. Flush filter" ++ newline ++ lit "2. Recalibrate sensor")).
  intros l [<- | [<- | []]]; reflexivity.
Defined.

(** A second reading ingested at the same clock value as the stored one:
    [latest] returns the second, with its own analysis. *)
Lemma latest_after_ingest_witness :
  List.length (readings (w_db stored_world)) = 1%nat
  /\ List.length (analyses (w_db stored_world)) = 1%nat
  /\ latest
       (w_db (snd (receive_data sample_float_repr upper_ascii_text sample_key
                     (answering_env sample_ai_text)
                     (mkSensorInput (of_int 1600) (of_int 22)) stored_world)))
     = inr (mkLatestResponse 2 sample_now (Some (of_int 1600))
              (Some (of_int 22)) false true
              (Some (mkLatestAnalysis sample_ai_text critical
                       [lit "Flush filter"; lit "Recalibrate sensor"]))).
Proof.
  split; [reflexivity | split; [reflexivity |]].
  apply (latest_after_ingest sample_float_repr upper_ascii_text sample_key
           (answering_env sample_ai_text)
           (mkSensorInput (of_int 1600) (of_int 22)) stored_world).
  - constructor; vm_compute.
    + repeat constructor; intros [].
    + repeat constructor; discriminate.
    + repeat constructor; intros [].
    + repeat constructor; discriminate.
    + constructor; [| constructor].
      eexists. split; [left; reflexivity |]. repeat split.
    + repeat constructor; intros [].
    + repeat constructor; cbn; try lia; discriminate.
    + repeat constructor.
  - apply Forall_forall. intros r Hr. vm_compute in Hr.
    destruct Hr as [<- | []]. vm_compute. discriminate.
Defined.

(** The default window over a store with one reading taken now. *)
Lemma history_returns_window_witness :
  exists resp,
    history sample_now 24 sample_db = Some resp
    /\ h_count resp = 1%nat.
Proof.
  destruct (history_returns_window sample_now 24 sample_db eq_refl)
    as (resp & Hh & Hhours & Hcount & Hperm & Hsorted & Hwin).
  exists resp. split; [exact Hh |].
  rewrite Hcount. apply Permutation_length in Hperm. exact Hperm.
Defined.

(** *** stats *)

Lemma filter_and_length_le (A : Type) (f g : A -> bool) (l : list A) :
  (List.length (filter (fun x => f x && g x) l) <= List.length (filter f l))%nat.
Proof.
  induction l as [| x l IH]; cbn; [lia |].
  destruct (f x), (g x); cbn; lia.
Qed.

Lemma order_by_timestamp_length (l : list Reading) :
  List.length (order_by_timestamp l) = List.length l.
Proof. apply Permutation_length, order_by_timestamp_perm. Qed.

Section StatsProperties.

Variable fmt_savings : nat -> nat -> pystr.
Variable rate_per_hour : nat -> Z -> pyfloat.
Variable downtime_hours : nat -> pyfloat.
Variable fmt_cost : nat -> pystr.

Local Abbreviation stats_of :=
  (stats fmt_savings rate_per_hour downtime_hours fmt_cost).

(** X21. [stats] raises for exactly the windows for which [history]
    raises; when both answer, total_readings equals the count of history,
    anomalies_detected does not exceed it, the savings field is the literal
    "0%" when the window holds no reading, and readings_per_hour is 0 when
    hours is not positive, so neither division can be by zero. *)
Theorem stats_agrees_with_history (now : datetime) (hours : Z) (db : Db) :
  match stats_of now hours db, history now hours db with
  | None, None => window_ok now hours = false
  | Some st, Some hi =>
      window_ok now hours = true
      /\ s_period_hours st = hours
      /\ s_total_readings st = h_count hi
      /\ (s_anomalies_detected st <= s_total_readings st)%nat
      /\ (s_total_readings st = 0%nat -> s_api_call_savings st = lit "0%")
      /\ ((hours <= 0)%Z -> s_readings_per_hour st = of_int 0)
  | _, _ => False
  end.
Proof.
  rewrite history_unfold. unfold stats, window_ok, timedelta_hours, datetime_sub.
  destruct ((- MAX_DELTA_DAYS <=? hours / 24)%Z && (hours / 24 <=? MAX_DELTA_DAYS)%Z);
    [| reflexivity].
  cbn [andb]. destruct (datetime_ok _); [| reflexivity].
  cbv zeta. cbn [s_period_hours s_total_readings s_anomalies_detected
                 s_api_call_savings s_readings_per_hour h_count].
  repeat split.
  - now rewrite order_by_timestamp_length.
  - apply filter_and_length_le.
  - intros ->. reflexivity.
  - intros Hh. apply Z.ltb_ge in Hh. now rewrite Hh.
Qed.

End StatsProperties.
